(** * process.py: file-id resolution, pairing, per-id processing, dispatch

    A shallow embedding of [process.py] (Python 3).  The script is glue code:
    it lists a directory or reads an id list, and for every id calls the
    label parser, the feature extractor and the writers of [file_io].
    Those three modules ([label_io], [feature_io], [file_io]) and [os] are
    not part of the file; they enter the development as an interface
    ([Collaborators]) whose operations may read the disk and may raise.

    Effects are explicit: a computation is a function from a world (the
    files on disk, the log of collaborator calls, the next fresh object
    identity) to a result-or-exception and a new world. *)

From stdpp Require Import base option list strings pretty gmap.
From Stdlib Require Import ZArith Ascii.

Local Open Scope string_scope.

(** ** Python string primitives *)

Module PyStr.

(** [s.endswith(suffix)] *)
Definition endswith (s suffix : string) : bool :=
  let n := String.length s in
  let k := String.length suffix in
  (k <=? n)%nat && String.eqb (String.substring (n - k) k s) suffix.

(** [s[:-k]] for [k > 0]: every character but the last [k]; the empty
    string when [s] has at most [k] characters. *)
Definition drop_last (k : nat) (s : string) : string :=
  String.substring 0 (String.length s - k) s.

(** ['{}<ext>'.format(s)] with [s] a string *)
Definition format_ext (ext : string) (s : string) : string := s +:+ ext.

(** [s.startswith('/')] *)
Definition is_abs (s : string) : bool :=
  match s with
  | String "/"%char _ => true
  | _ => false
  end.

(** [os.path.join(a, b)] of [posixpath], two arguments. *)
Definition path_join (a b : string) : string :=
  if is_abs b then b
  else if String.eqb a "" || endswith a "/" then a +:+ b
  else a +:+ "/" +:+ b.

End PyStr.

(** ** Worlds, exceptions and the effect monad *)

(** The exceptions the script can end with: the one it raises itself
    ([ValueError]) and whatever a collaborator raises. *)
Inductive Exn :=
| ValueError (msg : string)
| OSError (msg : string)
| CollabError (msg : string).

Inductive Result (A : Type) :=
| Ok (a : A)
| Raise (e : Exn).
Arguments Ok {A} a.
Arguments Raise {A} e.

(** A call of a collaborator, logged when the call is made. *)
Inductive Event :=
| EvListdir (dir : string)
| EvLoadTxt (path : string)
| EvLabel (path : string) (state_level : bool)
| EvWav (path : string)
| EvSaveProto (path : string) (data : string)
| EvSaveTxt (path : string) (data : string)
| EvSaveBin (path : string) (data : string).

Definition is_load (ev : Event) : bool :=
  match ev with
  | EvLabel _ _ | EvWav _ => true
  | _ => false
  end.

Definition is_save (ev : Event) : bool :=
  match ev with
  | EvSaveProto _ _ | EvSaveTxt _ _ | EvSaveBin _ _ => true
  | _ => false
  end.

(** The path a save call writes to. *)
Definition saved_path (ev : Event) : option string :=
  match ev with
  | EvSaveProto p _ | EvSaveTxt p _ | EvSaveBin p _ => Some p
  | _ => None
  end.

(** The disk: path to file content. *)
Record World := mkWorld {
  files : gmap string string;
  log : list Event;
  next_obj : nat
}.

Definition M (A : Type) : Type := World → Result A * World.

Definition ret {A} (a : A) : M A := λ w, (Ok a, w).

Definition raise {A} (e : Exn) : M A := λ w, (Raise e, w).

Definition bind {A B} (m : M A) (k : A → M B) : M B :=
  λ w, match m w with
       | (Ok a, w') => k a w'
       | (Raise e, w') => (Raise e, w')
       end.

Notation "x <- m ;; k" := (bind m (λ x, k))
  (at level 100, m at next level, right associativity,
   format "'[v' x  <-  m  ;; '/' k ']'").

Definition emit (ev : Event) : M unit :=
  λ w, (Ok tt, mkWorld (files w) (log w ++ [ev]) (next_obj w)).

(** A fresh object identity, as [id(obj)] of a newly created object. *)
Definition fresh : M nat :=
  λ w, (Ok (next_obj w), mkWorld (files w) (log w) (S (next_obj w))).

(** A collaborator that reads the disk and returns or raises. *)
Definition read {A} (f : gmap string string → Result A) : M A :=
  λ w, (f (files w), w).

(** A pure collaborator call that returns or raises. *)
Definition call {A} (r : Result A) : M A := λ w, (r, w).

(** The [for x in xs: body] loop over the items an iterable yields. *)
Fixpoint for_each {A} (body : A → M unit) (xs : list A) : M unit :=
  match xs with
  | [] => ret tt
  | x :: xs' => _ <- body x ;; for_each body xs'
  end.

(** [w'] is [w] after calls that wrote to no path outside [paths]: files
    elsewhere are as they were, no file is removed, the log only grows. *)
Definition extends_writing (paths : list string) (w w' : World) : Prop :=
  (∀ p, p ∉ paths → files w' !! p = files w !! p) ∧
  (∀ p, is_Some (files w !! p) → is_Some (files w' !! p)) ∧
  log w `prefix_of` log w'.

(** A computation that, returning or raising, writes to no path outside
    [paths]. *)
Definition writes_only {A} (paths : list string) (m : M A) : Prop :=
  ∀ w r w', m w = (r, w') → extends_writing paths w w'.

(** ** Python objects holding file ids *)

(** [get_file_ids] returns a [list] of [str] or, in Python 3, a [map]
    iterator over a [filter] iterator over a list.  Iterators carry the
    identity they were created with; their items are computed when they are
    iterated. *)
Inductive PyObj :=
| PyList (items : list string)
| PyFilter (oid : nat) (pred : string → bool) (src : PyObj)
| PyMap (oid : nat) (f : string → string) (src : PyObj).

(** The items [for x in o] visits.  The script iterates each object it
    creates at most once, so what an iterator has already yielded is not
    tracked. *)
Fixpoint py_iter (o : PyObj) : list string :=
  match o with
  | PyList items => items
  | PyFilter _ pred src => filter (λ x, pred x = true) (py_iter src)
  | PyMap _ f src => f <$> py_iter src
  end.

(** [filter(pred, src)] and [map(f, src)]: a new iterator object. *)
Definition py_filter (pred : string → bool) (src : PyObj) : M PyObj :=
  oid <- fresh ;; ret (PyFilter oid pred src).

Definition py_map (f : string → string) (src : PyObj) : M PyObj :=
  oid <- fresh ;; ret (PyMap oid f src).

(** [a != b]: lists compare by their items; [filter] and [map] objects
    define no [__eq__], so they are unequal unless they are the same
    object; objects of different types are unequal. *)
Definition py_ne (a b : PyObj) : bool :=
  match a, b with
  | PyList l1, PyList l2 => negb (bool_decide (l1 = l2))
  | PyFilter o1 _ _, PyFilter o2 _ _ => negb (o1 =? o2)%nat
  | PyMap o1 _ _, PyMap o2 _ _ => negb (o1 =? o2)%nat
  | _, _ => true
  end.

(** Truth value of an optional string argument: [None] and [''] are
    false. *)
Definition truthy (a : option string) : bool :=
  match a with
  | None => false
  | Some s => negb (String.eqb s "")
  end.

(** [a and b] *)
Definition py_and (a b : option string) : option string :=
  if truthy a then b else a.

(** ** The collaborators

    [os.listdir], [label_io], [feature_io] and [file_io] are opaque here.
    What reads the disk is a function of the disk as it is when the call is
    made (a run may write into the directory it reads from). *)

Class Collaborators := {
  (** [label_io.Label] and [feature_io.Wav] instances, numpy arrays *)
  Label : Type;
  Wav : Type;
  Array : Type;
  (** [os.listdir(dir)] *)
  os_listdir : gmap string string → string → Result (list string);
  (** [label_io.load_txt(path)] *)
  load_txt : gmap string string → string → Result (list string);
  (** [label_io.Label(path, state_level)] *)
  Label_new : gmap string string → string → bool → Result Label;
  (** [label.binarise(context)] and [label.count_frames()] *)
  binarise : Label → string → Result Array;
  count_frames : Label → Result Z;
  (** [feature_io.Wav(path)] and [wav.extract_features()] *)
  Wav_new : gmap string string → string → Result Wav;
  extract_features : Wav → Result (Array * Array * Array);
  (** what [file_io] puts on disk for a value, and when it refuses *)
  txt_encode : Z → string;
  bin_encode : Array → string;
  save_error : gmap string string → string → string → option Exn
}.

Section Process.

Context `{C : Collaborators}.

(** The values of the feature dictionary. *)
Inductive Value :=
| VArr (a : Array)
| VInt (n : Z).

(** The serialiser of [file_io.save_proto]. *)
Variable proto_encode : gmap string Value → string.

(** Modelled from the spec: the writers of [file_io] ([save_proto],
    [save_txt], [save_bin]) are not in the source.  A writer puts the
    whole encoded value at the path, or raises and leaves the disk as it
    was ("either the full record is written or none of it"). *)
Definition write_file (path data : string) : M unit :=
  λ w, match save_error (files w) path data with
       | Some e => (Raise e, w)
       | None =>
           (Ok tt, mkWorld (<[path := data]> (files w)) (log w) (next_obj w))
       end.

Definition save_proto (features : gmap string Value) (path : string)
  : M unit :=
  _ <- emit (EvSaveProto path (proto_encode features)) ;;
  write_file path (proto_encode features).

Definition save_txt (value : Z) (path : string) : M unit :=
  _ <- emit (EvSaveTxt path (txt_encode value)) ;;
  write_file path (txt_encode value).

Definition save_bin (value : Array) (path : string) : M unit :=
  _ <- emit (EvSaveBin path (bin_encode value)) ;;
  write_file path (bin_encode value).

Definition listdir (dir : string) : M (list string) :=
  _ <- emit (EvListdir dir) ;; read (λ fs, os_listdir fs dir).

Definition load_ids (path : string) : M (list string) :=
  _ <- emit (EvLoadTxt path) ;; read (λ fs, load_txt fs path).

Definition new_label (path : string) (state_level : bool) : M Label :=
  _ <- emit (EvLabel path state_level) ;;
  read (λ fs, Label_new fs path state_level).

Definition new_wav (path : string) : M Wav :=
  _ <- emit (EvWav path) ;; read (λ fs, Wav_new fs path).

(** *** [get_file_ids] *)

Definition get_file_ids (dir : string) (id_list : option string)
  : M PyObj :=
  match id_list with
  | None =>
      listing <- listdir dir ;;
      file_ids <- py_filter (λ f, PyStr.endswith f ".lab")
                            (PyList listing) ;;
      file_ids <- py_map (λ x, PyStr.drop_last (String.length ".lab") x)
                         file_ids ;;
      ret file_ids
  | Some path =>
      file_ids <- load_ids path ;;
      ret (PyList file_ids)
  end.

(** *** [process_files] *)

Definition mismatch_msg : string :=
  "Please provide id_list, or ensure that wav_dir and lab_dir contain the same files.".

(** The dictionary literal [{'lab': .., 'duration': .., 'f0': ..,
    'mgc': .., 'bap': ..}]. *)
Definition features_dict (binary_label : Array) (duration : Z)
    (f0 mgc bap : Array) : gmap string Value :=
  <["bap" := VArr bap]>
  (<["mgc" := VArr mgc]>
  (<["f0" := VArr f0]>
  (<["duration" := VInt duration]>
  (<["lab" := VArr binary_label]> ∅)))).

(** The body of the loop of [process_files]. *)
Definition process_files_body (lab_dir wav_dir out_dir : string)
    (state_level : bool) (file_id : string) : M unit :=
  let lab_path := PyStr.path_join lab_dir (PyStr.format_ext ".lab" file_id) in
  label <- new_label lab_path state_level ;;
  let wav_path := PyStr.path_join wav_dir (PyStr.format_ext ".wav" file_id) in
  wav <- new_wav wav_path ;;
  binary_label <- call (binarise label "") ;;
  duration <- call (count_frames label) ;;
  feats <- call (extract_features wav) ;;
  let '(f0, mgc, bap) := feats in
  let features := features_dict binary_label duration f0 mgc bap in
  let feature_path :=
    PyStr.path_join out_dir (PyStr.format_ext ".proto" file_id) in
  save_proto features feature_path.

Definition process_files (lab_dir wav_dir : string)
    (id_list : option string) (out_dir : string) (state_level : bool)
  : M unit :=
  file_ids <- get_file_ids lab_dir id_list ;;
  _file_ids <- get_file_ids wav_dir id_list ;;
  if py_ne file_ids _file_ids then raise (ValueError mismatch_msg)
  else
    for_each (process_files_body lab_dir wav_dir out_dir state_level)
             (py_iter file_ids).

(** *** [process_lab_files] *)

Definition process_lab_files_body (lab_dir out_dir : string)
    (state_level : bool) (file_id : string) : M unit :=
  let lab_path := PyStr.path_join lab_dir (PyStr.format_ext ".lab" file_id) in
  label <- new_label lab_path state_level ;;
  duration <- call (count_frames label) ;;
  let duration_path :=
    PyStr.path_join out_dir (PyStr.format_ext ".dur" file_id) in
  _ <- save_txt duration duration_path ;;
  binary_label <- call (binarise label "") ;;
  let binary_label_path :=
    PyStr.path_join out_dir (PyStr.format_ext ".lab" file_id) in
  save_bin binary_label binary_label_path.

Definition process_lab_files (lab_dir : string) (id_list : option string)
    (out_dir : string) (state_level : bool) : M unit :=
  file_ids <- get_file_ids lab_dir id_list ;;
  for_each (process_lab_files_body lab_dir out_dir state_level)
           (py_iter file_ids).

(** *** [process_wav_files] *)

Definition process_wav_files_body (wav_dir out_dir : string)
    (file_id : string) : M unit :=
  let wav_path := PyStr.path_join wav_dir (PyStr.format_ext ".wav" file_id) in
  wav <- new_wav wav_path ;;
  feats <- call (extract_features wav) ;;
  let '(f0, mgc, bap) := feats in
  let feature_path := PyStr.path_join out_dir file_id in
  _ <- save_bin f0 (PyStr.format_ext ".f0" feature_path) ;;
  _ <- save_bin mgc (PyStr.format_ext ".mgc" feature_path) ;;
  save_bin bap (PyStr.format_ext ".bap" feature_path).

Definition process_wav_files (wav_dir : string) (id_list : option string)
    (out_dir : string) : M unit :=
  file_ids <- get_file_ids wav_dir id_list ;;
  for_each (process_wav_files_body wav_dir out_dir) (py_iter file_ids).

(** *** The [__main__] block *)

(** The parsed arguments the dispatch reads. *)
Record Args := mkArgs {
  lab_dir : option string;
  wav_dir : option string;
  id_list : option string;
  out_dir : string;
  state_level : bool
}.

(** [argparse] stores strings, so inside a branch that tested an argument
    for truth the argument is a string. *)
Definition str_of (a : option string) : string := default "" a.

Definition main (args : Args) : M unit :=
  if truthy (py_and (lab_dir args) (wav_dir args)) then
    process_files (str_of (lab_dir args)) (str_of (wav_dir args))
                  (id_list args) (out_dir args) (state_level args)
  else if truthy (lab_dir args) then
    process_lab_files (str_of (lab_dir args)) (id_list args)
                      (out_dir args) (state_level args)
  else if truthy (wav_dir args) then
    process_wav_files (str_of (wav_dir args)) (id_list args) (out_dir args)
  else ret tt.

(** *** The three modes side by side

    Used to state what holds "in every mode" once. *)
Inductive Mode :=
| Combined (lab wav : string) (lvl : bool)
| LabelOnly (lab : string) (lvl : bool)
| WavOnly (wav : string).

Definition run_mode (m : Mode) (ids : option string) (out : string)
  : M unit :=
  match m with
  | Combined lab wav lvl => process_files lab wav ids out lvl
  | LabelOnly lab lvl => process_lab_files lab ids out lvl
  | WavOnly wav => process_wav_files wav ids out
  end.

(** The loop body of a mode. *)
Definition mode_body (m : Mode) (out : string) : string → M unit :=
  match m with
  | Combined lab wav lvl => process_files_body lab wav out lvl
  | LabelOnly lab lvl => process_lab_files_body lab out lvl
  | WavOnly wav => process_wav_files_body wav out
  end.

(** What precedes the loop of a mode: the ids are resolved and, in
    combined mode, compared. *)
Definition mode_ids (m : Mode) (ids : option string) : M (list string) :=
  match m with
  | Combined lab wav _ =>
      file_ids <- get_file_ids lab ids ;;
      _file_ids <- get_file_ids wav ids ;;
      if py_ne file_ids _file_ids then raise (ValueError mismatch_msg)
      else ret (py_iter file_ids)
  | LabelOnly lab _ =>
      file_ids <- get_file_ids lab ids ;; ret (py_iter file_ids)
  | WavOnly wav =>
      file_ids <- get_file_ids wav ids ;; ret (py_iter file_ids)
  end.

(** The paths a mode writes for one id. *)
Definition mode_outputs (m : Mode) (out : string) (file_id : string)
  : list string :=
  match m with
  | Combined _ _ _ =>
      [PyStr.path_join out (PyStr.format_ext ".proto" file_id)]
  | LabelOnly _ _ =>
      [PyStr.path_join out (PyStr.format_ext ".dur" file_id);
       PyStr.path_join out (PyStr.format_ext ".lab" file_id)]
  | WavOnly _ =>
      [PyStr.format_ext ".f0" (PyStr.path_join out file_id);
       PyStr.format_ext ".mgc" (PyStr.path_join out file_id);
       PyStr.format_ext ".bap" (PyStr.path_join out file_id)]
  end.

(** The files a mode opens for one id, in the order it opens them. *)
Definition mode_loads (m : Mode) (file_id : string) : list Event :=
  match m with
  | Combined lab wav lvl =>
      [EvLabel (PyStr.path_join lab (PyStr.format_ext ".lab" file_id)) lvl;
       EvWav (PyStr.path_join wav (PyStr.format_ext ".wav" file_id))]
  | LabelOnly lab lvl =>
      [EvLabel (PyStr.path_join lab (PyStr.format_ext ".lab" file_id)) lvl]
  | WavOnly wav =>
      [EvWav (PyStr.path_join wav (PyStr.format_ext ".wav" file_id))]
  end.

End Process.

(** ** The id-list reader *)

Module IdList.

Definition newline : ascii := ascii_of_nat 10.

(** The lines of a text, each ended by a newline; a last line with no
    newline counts when it is not empty. *)
Fixpoint lines_from (cur text : string) : list string :=
  match text with
  | EmptyString => if String.eqb cur "" then [] else [cur]
  | String c rest =>
      if Ascii.eqb c newline then cur :: lines_from "" rest
      else lines_from (cur +:+ String c "") rest
  end.

Definition lines (text : string) : list string := lines_from "" text.

(** Modelled from the spec: [label_io.load_txt] is not in the source.  It
    reads "the file as newline-delimited text, one id per line,
    preserving file order", and fails with an IOError-class condition when
    the file does not exist. *)
Definition load_txt_spec (fs : gmap string string) (path : string)
  : Result (list string) :=
  match fs !! path with
  | Some text => Ok (lines text)
  | None => Raise (OSError "No such file or directory")
  end.

(** No newline inside the string. *)
Fixpoint one_line (s : string) : bool :=
  match s with
  | EmptyString => true
  | String c rest => negb (Ascii.eqb c newline) && one_line rest
  end.

Definition nl : string := String newline "".

End IdList.

(** ** A concrete set of collaborators

    Small stand-ins used to run the script on examples: a label is the text
    of its file and has one frame per line, a waveform is the text of its
    file, arrays are strings. *)

Module Demo.

Definition missing {A} : Result A :=
  Raise (OSError "No such file or directory").

Definition demo_listdir (fs : gmap string string) (dir : string)
  : Result (list string) :=
  if String.eqb dir "labs" then Ok ["p.lab"; "notes.txt"; "q.lab"]
  else if String.eqb dir "labs_rev" then Ok ["q.lab"; "p.lab"]
  else if String.eqb dir "labs_ab" then Ok ["b.lab"; "a.txt"; "a.lab"]
  else if String.eqb dir "wavs" then Ok ["p.wav"; "q.wav"]
  else missing.

Definition demo_open (fs : gmap string string) (path : string)
  : Result string :=
  match fs !! path with
  | Some text => Ok text
  | None => missing
  end.

Definition demo_binarise (label context : string) : Result string :=
  if String.eqb label "" then Raise (CollabError "empty label")
  else Ok ("bin:" +:+ label).

Definition demo_count_frames (label : string) : Result Z :=
  Ok (Z.of_nat (length (IdList.lines label))).

Definition demo_extract (wav : string) : Result (string * string * string) :=
  Ok ("f0:" +:+ wav, "mgc:" +:+ wav, "bap:" +:+ wav).

Definition demo_txt (n : Z) : string := pretty n.

(** The output directory [ro] cannot be written to. *)
Definition demo_save_error (fs : gmap string string) (path data : string)
  : option Exn :=
  if String.prefix "ro/" path then Some (OSError "Permission denied")
  else None.

#[export] Instance demo : Collaborators := {|
  Label := string;
  Wav := string;
  Array := string;
  os_listdir := demo_listdir;
  load_txt := IdList.load_txt_spec;
  Label_new := λ fs path _, demo_open fs path;
  binarise := demo_binarise;
  count_frames := demo_count_frames;
  Wav_new := demo_open;
  extract_features := demo_extract;
  txt_encode := demo_txt;
  bin_encode := λ a, a;
  save_error := demo_save_error
|}.

Definition demo_value (v : Value) : string :=
  match v with
  | VArr a => a
  | VInt n => pretty n
  end.

(** One [key=value] line per field, in the order lab, duration, f0, mgc,
    bap; a field the dictionary lacks is left out. *)
Definition demo_proto (d : gmap string Value) : string :=
  String.concat ""
    (omap (λ k, (λ v, k +:+ "=" +:+ demo_value v +:+ IdList.nl) <$> d !! k)
          ["lab"; "duration"; "f0"; "mgc"; "bap"]).

Definition disk : gmap string string :=
  <["labs/p.lab" := "0 5 a" +:+ IdList.nl +:+ "5 10 b" +:+ IdList.nl]>
  (<["labs/q.lab" := ""]>
  (<["wavs/p.wav" := "RIFFp"]>
  (<["wavs/q.wav" := "RIFFq"]>
  (<["ids.txt" := "p" +:+ IdList.nl +:+ "q" +:+ IdList.nl]>
  (<["one.txt" := "p" +:+ IdList.nl]> ∅))))).

Definition w0 : World := mkWorld disk [] 0.

(** [--lab_dir '' --wav_dir wavs --id_list ids.txt --out_dir out] *)
Definition empty_lab_dir_args : Args :=
  mkArgs (Some "") (Some "wavs") (Some "ids.txt") "out" false.

End Demo.

(** A second disk for the same collaborators: every label has frames, and
    the label directory also holds waveforms. *)
Module DemoFull.

Definition full_disk : gmap string string :=
  <["labs/q.lab" := "0 3 c" +:+ IdList.nl]>
  (<["labs/p.wav" := "RIFFp"]>
  (<["labs/q.wav" := "RIFFq"]> Demo.disk)).

Definition w_full : World := mkWorld full_disk [] 0.

End DemoFull.

(** * Facts about the string primitives *)

Module PyStrFacts.
Import PyStr.

(** The primitives on a few names. *)
Example endswith_examples :
  endswith "a.lab" ".lab" = true ∧ endswith "a.wav" ".lab" = false ∧
  endswith "lab" ".lab" = false ∧ endswith ".lab" ".lab" = true.
Proof. by repeat split. Qed.

Example drop_last_examples :
  drop_last 4 "a.lab" = "a" ∧ drop_last 4 ".lab" = "" ∧
  drop_last 4 "ab" = "".
Proof. by repeat split. Qed.

Example path_join_examples :
  path_join "out" "p.proto" = "out/p.proto" ∧
  path_join "out/" "p.proto" = "out/p.proto" ∧
  path_join "" "p.proto" = "p.proto" ∧
  path_join "out" "/tmp/p.proto" = "/tmp/p.proto".
Proof. by repeat split. Qed.

Lemma app_cons (c : ascii) (s t : string) :
  String c s +:+ t = String c (s +:+ t).
Proof. reflexivity. Qed.

Lemma length_app (s t : string) :
  String.length (s +:+ t) = String.length s + String.length t.
Proof.
  induction s as [|c s IH]; [done |].
  rewrite app_cons. simpl. by rewrite IH.
Qed.

Lemma app_nil_r (s : string) : s +:+ "" = s.
Proof. induction s as [|c s IH]; [done | by rewrite app_cons, IH]. Qed.

Lemma app_assoc (s t u : string) : (s +:+ t) +:+ u = s +:+ (t +:+ u).
Proof. induction s as [|c s IH]; [done | by rewrite !app_cons, IH]. Qed.

Lemma substring_all (s : string) : String.substring 0 (String.length s) s = s.
Proof. induction s as [|c s IH]; simpl; [done | by rewrite IH]. Qed.

Lemma substring_skip (s t : string) (k : nat) :
  String.substring (String.length s) k (s +:+ t) = String.substring 0 k t.
Proof. induction s as [|c s IH]; [done | by rewrite app_cons]. Qed.

Lemma substring_take (s t : string) :
  String.substring 0 (String.length s) (s +:+ t) = s.
Proof.
  induction s as [|c s IH]; [by destruct t |].
  rewrite app_cons. simpl. by rewrite IH.
Qed.

(** Splitting a string at a position. *)
Lemma substring_split (s : string) (n : nat) :
  (n ≤ String.length s)%nat →
  s = String.substring 0 n s +:+ String.substring n (String.length s - n) s.
Proof.
  revert n. induction s as [|c s IH]; intros [|n] Hn; simpl in *; try lia.
  - done.
  - by rewrite substring_all.
  - rewrite app_cons. f_equal. apply IH. lia.
Qed.

(** [endswith] decides "is of the form [y +:+ suffix]". *)
Lemma endswith_app (y suffix : string) : endswith (y +:+ suffix) suffix = true.
Proof.
  unfold endswith. rewrite length_app.
  replace (String.length y + String.length suffix - String.length suffix)
    with (String.length y) by lia.
  rewrite substring_skip, substring_all, String.eqb_refl.
  rewrite andb_true_r. apply Nat.leb_le. lia.
Qed.

Lemma endswith_inv (s suffix : string) :
  endswith s suffix = true →
  s = drop_last (String.length suffix) s +:+ suffix.
Proof.
  unfold endswith, drop_last. intros H.
  apply andb_true_iff in H as [Hle Heq].
  apply Nat.leb_le in Hle. apply String.eqb_eq in Heq.
  pose proof (substring_split s (String.length s - String.length suffix))
    as Hsplit.
  replace (String.length s - (String.length s - String.length suffix))
    with (String.length suffix) in Hsplit by lia.
  rewrite Heq in Hsplit. apply Hsplit. lia.
Qed.

Lemma endswith_iff (s suffix : string) :
  endswith s suffix = true ↔ ∃ y, s = y +:+ suffix.
Proof.
  split.
  - intros H. eexists. by apply endswith_inv.
  - intros [y ->]. apply endswith_app.
Qed.

Lemma drop_last_app (y suffix : string) :
  drop_last (String.length suffix) (y +:+ suffix) = y.
Proof.
  unfold drop_last. rewrite length_app.
  replace (String.length y + String.length suffix - String.length suffix)
    with (String.length y) by lia.
  apply substring_take.
Qed.

(** A name cannot end in two different suffixes of the same length. *)
Lemma endswith_excl (s suf1 suf2 : string) :
  String.length suf1 = String.length suf2 → suf1 ≠ suf2 →
  endswith s suf1 = true → endswith s suf2 = false.
Proof.
  unfold endswith. intros Hlen Hne H.
  apply andb_true_iff in H as [Hle Heq]. apply String.eqb_eq in Heq.
  rewrite <- Hlen, Heq. apply andb_false_iff. right.
  by apply String.eqb_neq.
Qed.

(** The last character of [s +:+ t] is the last character of [t]. *)
Lemma get_last_app (s t : string) :
  t ≠ "" →
  String.get (String.length (s +:+ t) - 1) (s +:+ t)
    = String.get (String.length t - 1) t.
Proof.
  intros Ht. rewrite length_app.
  assert (String.length t ≠ 0) by by destruct t.
  replace (String.length s + String.length t - 1)
    with (String.length t - 1 + String.length s) by lia.
  symmetry. apply String.append_correct2.
Qed.

(** A name built with one extension does not end in an extension with
    another last character. *)
Lemma endswith_other (s ext ext' : string) :
  ext ≠ "" → ext' ≠ "" →
  String.get (String.length ext - 1) ext
    ≠ String.get (String.length ext' - 1) ext' →
  endswith (s +:+ ext) ext' = false.
Proof.
  intros He He' Hlast. destruct (endswith (s +:+ ext) ext') eqn:E; [| done].
  apply endswith_iff in E as [y Hy]. exfalso. apply Hlast.
  rewrite <- (get_last_app s ext He), <- (get_last_app y ext' He').
  by rewrite Hy.
Qed.

Lemma is_abs_app (s t : string) :
  is_abs (s +:+ t) = if String.eqb s "" then is_abs t else is_abs s.
Proof. by destruct s. Qed.

(** Formatting an extension after the join or before it gives the same
    path. *)
Lemma path_join_ext (a b ext : string) :
  is_abs ext = false →
  path_join a b +:+ ext = path_join a (b +:+ ext).
Proof.
  intros Hext. unfold path_join. rewrite is_abs_app.
  destruct b as [|c b].
  - simpl. rewrite Hext. rewrite !app_nil_r.
    destruct (String.eqb a "" || endswith a "/"); [done |].
    by rewrite !app_assoc.
  - cbn [String.eqb]. destruct (is_abs (String c b)); [done |].
    destruct (String.eqb a "" || endswith a "/"); by rewrite !app_assoc.
Qed.

End PyStrFacts.

(** * Facts about the id-list reader *)

Module IdListFacts.
Import IdList.

Example lines_examples :
  lines ("x" +:+ nl +:+ "y" +:+ nl) = ["x"; "y"] ∧
  lines ("x" +:+ nl +:+ "y") = ["x"; "y"] ∧
  lines ("x" +:+ nl +:+ nl +:+ "y" +:+ nl) = ["x"; ""; "y"] ∧
  lines "" = [].
Proof. by repeat split. Qed.

Lemma lines_from_line (cur x rest : string) :
  one_line x = true →
  lines_from cur (x +:+ nl +:+ rest) = (cur +:+ x) :: lines_from "" rest.
Proof.
  revert cur. induction x as [|c x IH]; intros cur Hx.
  - unfold nl. rewrite PyStrFacts.app_nil_r.
    change ("" +:+ String newline "" +:+ rest) with (String newline rest).
    done.
  - simpl in Hx. apply andb_true_iff in Hx as [Hc Hx].
    rewrite PyStrFacts.app_cons. simpl.
    destruct (Ascii.eqb c newline); [done |].
    rewrite IH by done. by rewrite PyStrFacts.app_assoc.
Qed.

(** Two ids on successive lines are read as those two ids, in order. *)
Lemma lines_two (x y : string) :
  one_line x = true → one_line y = true →
  lines (x +:+ nl +:+ y +:+ nl) = [x; y].
Proof.
  intros Hx Hy. unfold lines.
  rewrite lines_from_line by done.
  replace (y +:+ nl) with (y +:+ nl +:+ "") by by rewrite PyStrFacts.app_nil_r.
  by rewrite lines_from_line.
Qed.

End IdListFacts.

(** * Facts about the effect monad and the loop *)

Section LoopFacts.

Context {A : Type}.
Implicit Types (body : A → M unit) (xs : list A) (w : World).

Lemma bind_ok {B B'} (m : M B) (k : B → M B') w b w' :
  m w = (Ok b, w') → bind m k w = k b w'.
Proof. intros H. unfold bind. by rewrite H. Qed.

Lemma bind_raise {B B'} (m : M B) (k : B → M B') w e w' :
  m w = (Raise e, w') → bind m k w = (Raise e, w').
Proof. intros H. unfold bind. by rewrite H. Qed.

Lemma for_each_app body xs ys w :
  for_each body (xs ++ ys) w =
    match for_each body xs w with
    | (Ok _, w') => for_each body ys w'
    | (Raise e, w') => (Raise e, w')
    end.
Proof.
  revert w. induction xs as [|x xs IH]; intros w; [done |].
  simpl. unfold bind. destruct (body x w) as [[[]|e] w']; [apply IH | done].
Qed.

Lemma for_each_one body x w :
  for_each body [x] w = body x w.
Proof.
  simpl. unfold bind, ret. by destruct (body x w) as [[[]|e] w'].
Qed.

(** One more turn of the loop, when the turn succeeds. *)
Lemma for_each_step body xs k x w wk wk' :
  xs !! k = Some x →
  for_each body (take k xs) w = (Ok tt, wk) →
  body x wk = (Ok tt, wk') →
  for_each body (take (S k) xs) w = (Ok tt, wk').
Proof.
  intros Hk Hpre Hx. rewrite (take_S_r _ _ _ Hk), for_each_app, Hpre.
  by rewrite for_each_one.
Qed.

(** A turn that raises ends the loop there. *)
Lemma for_each_halts body xs k x w wk e wk' :
  xs !! k = Some x →
  for_each body (take k xs) w = (Ok tt, wk) →
  body x wk = (Raise e, wk') →
  for_each body xs w = (Raise e, wk').
Proof.
  intros Hk Hpre Hx. rewrite <- (take_drop_middle _ _ _ Hk).
  rewrite for_each_app, Hpre. simpl. by rewrite (bind_raise _ _ _ _ _ Hx).
Qed.

End LoopFacts.

(** * Facts about what a computation may write *)

Section Footprint.

Implicit Types (paths : list string) (w : World).

Lemma extends_refl paths w : extends_writing paths w w.
Proof. by repeat split. Qed.

Lemma extends_trans paths w1 w2 w3 :
  extends_writing paths w1 w2 → extends_writing paths w2 w3 →
  extends_writing paths w1 w3.
Proof.
  intros (Ha & Hb & Hc) (Ha' & Hb' & Hc'). repeat split.
  - intros p Hp. by rewrite Ha', Ha.
  - intros p Hp. by apply Hb', Hb.
  - by etrans.
Qed.

Lemma writes_only_ret {A} paths (a : A) : writes_only paths (ret a).
Proof. intros w r w' [= _ <-]. apply extends_refl. Qed.

Lemma writes_only_raise {A} paths e : writes_only paths (@raise A e).
Proof. intros w r w' [= _ <-]. apply extends_refl. Qed.

Lemma writes_only_call {A} paths (r : Result A) :
  writes_only paths (call r).
Proof. intros w r' w' [= _ <-]. apply extends_refl. Qed.

Lemma writes_only_read {A} paths (f : gmap string string → Result A) :
  writes_only paths (read f).
Proof. intros w r w' [= _ <-]. apply extends_refl. Qed.

Lemma writes_only_emit paths ev : writes_only paths (emit ev).
Proof.
  intros w r w' [= _ <-]. repeat split; try done.
  simpl. by apply prefix_app_r.
Qed.

Lemma writes_only_bind {A B} paths (m : M A) (k : A → M B) :
  writes_only paths m → (∀ a, writes_only paths (k a)) →
  writes_only paths (bind m k).
Proof.
  intros Hm Hk w r w'. unfold bind.
  destruct (m w) as [[a|e] w1] eqn:E.
  - intros Hka. eapply extends_trans; [by eapply Hm | by eapply Hk].
  - intros [= _ <-]. by eapply Hm.
Qed.

End Footprint.

(** * Facts about the script *)

Section ProcessFacts.

Context `{C : Collaborators}.
Variable proto_encode : gmap string Value → string.

Implicit Types (w : World) (dir path : string) (o : PyObj).

(** The object [get_file_ids] builds from a listing. *)
Lemma get_file_ids_listdir dir w listing :
  os_listdir (files w) dir = Ok listing →
  get_file_ids dir None w =
    (Ok (PyMap (S (next_obj w))
               (λ x, PyStr.drop_last (String.length ".lab") x)
               (PyFilter (next_obj w) (λ f, PyStr.endswith f ".lab")
                         (PyList listing))),
     mkWorld (files w) (log w ++ [EvListdir dir]) (S (S (next_obj w)))).
Proof.
  intros H. unfold get_file_ids, listdir, bind, emit, read. simpl.
  by rewrite H.
Qed.

Lemma get_file_ids_listdir_raise dir w e :
  os_listdir (files w) dir = Raise e →
  get_file_ids dir None w =
    (Raise e, mkWorld (files w) (log w ++ [EvListdir dir]) (next_obj w)).
Proof.
  intros H. unfold get_file_ids, listdir, bind, emit, read. simpl.
  by rewrite H.
Qed.

Lemma get_file_ids_load dir path w :
  get_file_ids dir (Some path) w =
    (match load_txt (files w) path with
     | Ok ids => Ok (PyList ids)
     | Raise e => Raise e
     end,
     mkWorld (files w) (log w ++ [EvLoadTxt path]) (next_obj w)).
Proof.
  unfold get_file_ids, load_ids, bind, emit, read, ret. simpl.
  by destruct (load_txt (files w) path).
Qed.

(** Resolving ids touches no file and makes no load or save call. *)
Lemma get_file_ids_quiet dir ids w r w' :
  get_file_ids dir ids w = (r, w') →
  files w' = files w ∧
  ∃ evs, log w' = (log w ++ evs)%list ∧
         Forall (λ ev, is_load ev = false ∧ is_save ev = false) evs.
Proof.
  destruct ids as [path|].
  - rewrite get_file_ids_load. intros [= _ <-]. simpl.
    split; [done |]. eexists. split; [done |]. by repeat constructor.
  - destruct (os_listdir (files w) dir) as [l|e] eqn:E.
    + rewrite (get_file_ids_listdir _ _ _ E). intros [= _ <-]. simpl.
      split; [done |]. eexists. split; [done |]. by repeat constructor.
    + rewrite (get_file_ids_listdir_raise _ _ _ E). intros [= _ <-]. simpl.
      split; [done |]. eexists. split; [done |]. by repeat constructor.
Qed.

(** Stripping the suffix of an entry that has it and putting it back. *)
Lemma strip_restore (listing : list string) :
  (λ i, i +:+ ".lab") <$>
    ((λ x, PyStr.drop_last (String.length ".lab") x) <$>
       filter (λ f, PyStr.endswith f ".lab" = true) listing)
  = filter (λ f, PyStr.endswith f ".lab" = true) listing.
Proof.
  rewrite <- list_fmap_compose.
  rewrite <- (list_fmap_id (filter _ listing)) at 2.
  apply Forall_fmap_ext, Forall_forall. intros x Hx.
  apply list_elem_of_filter in Hx as [Hx _]. simpl.
  symmetry. exact (PyStrFacts.endswith_inv x ".lab" Hx).
Qed.

(** C4: with no id list, [get_file_ids] succeeds on a directory that can
    be listed, changes no file, and the ids it yields are exactly the
    listed entries ending in [.lab] with that suffix stripped: putting
    the suffix back gives the [.lab] entries in listing order, an id is
    yielded iff its [.lab] name is listed, a listing without repeated
    names gives ids without repetition, and when the [.lab] entries are
    [a.lab] and [b.lab] the ids are [a] and [b]. *)
Theorem get_file_ids_lab_entries dir w listing
    (Hlist : os_listdir (files w) dir = Ok listing) :
  ∃ o w',
    get_file_ids dir None w = (Ok o, w') ∧
    files w' = files w ∧
    (λ i, i +:+ ".lab") <$> py_iter o
      = filter (λ f, PyStr.endswith f ".lab" = true) listing ∧
    sublist ((λ i, i +:+ ".lab") <$> py_iter o) listing ∧
    (∀ i, i ∈ py_iter o ↔ (i +:+ ".lab") ∈ listing) ∧
    (NoDup listing → NoDup (py_iter o)) ∧
    (filter (λ f, PyStr.endswith f ".lab" = true) listing
       ≡ₚ ["a.lab"; "b.lab"] → py_iter o ≡ₚ ["a"; "b"]).
Proof.
  eexists _, _. split; [by apply get_file_ids_listdir |].
  cbn [py_iter files].
  split; [done |]. split; [apply strip_restore |].
  split; [rewrite strip_restore; apply sublist_filter |].
  split; [| split].
  - intros i. rewrite list_elem_of_fmap. split.
    + intros (x & -> & Hx). apply list_elem_of_filter in Hx as [Hx Hin].
      by rewrite <- (PyStrFacts.endswith_inv _ _ Hx).
    + intros Hin. exists (i +:+ ".lab"). split.
      * by rewrite PyStrFacts.drop_last_app.
      * apply list_elem_of_filter. split; [| done].
        apply PyStrFacts.endswith_app.
  - intros Hnd. apply NoDup_fmap_2_strong; [| by apply NoDup_filter].
    intros x y Hx Hy Heq.
    apply list_elem_of_filter in Hx as [Hx _].
    apply list_elem_of_filter in Hy as [Hy _].
    rewrite (PyStrFacts.endswith_inv _ _ Hx).
    rewrite (PyStrFacts.endswith_inv _ _ Hy). by rewrite Heq.
  - intros Hperm. by rewrite Hperm.
Qed.

(** C5: with an id list, [get_file_ids] gives the same outcome for every
    [dir]; it lists no directory (its only call is [load_txt] on the id
    list) and returns the list [load_txt] returns, or raises what it
    raises; for a reader that reads one id per line, a file holding [x]
    and [y] on successive lines resolves to the list [x], [y] in that
    order. *)
Theorem get_file_ids_id_list dir dir' path w :
  get_file_ids dir (Some path) w = get_file_ids dir' (Some path) w ∧
  get_file_ids dir (Some path) w =
    (match load_txt (files w) path with
     | Ok ids => Ok (PyList ids)
     | Raise e => Raise e
     end,
     mkWorld (files w) (log w ++ [EvLoadTxt path]) (next_obj w)) ∧
  ∀ x y,
    load_txt (files w) path = IdList.load_txt_spec (files w) path →
    files w !! path = Some (x +:+ IdList.nl +:+ y +:+ IdList.nl) →
    IdList.one_line x = true → IdList.one_line y = true →
    ∃ w', get_file_ids dir (Some path) w = (Ok (PyList [x; y]), w') ∧
          py_iter (PyList [x; y]) = [x; y].
Proof.
  split; [by rewrite !get_file_ids_load |].
  split; [apply get_file_ids_load |].
  intros x y Hreader Hfile Hx Hy. eexists. split; [| done].
  rewrite get_file_ids_load, Hreader. unfold IdList.load_txt_spec.
  by rewrite Hfile, IdListFacts.lines_two.
Qed.

(** Two successive calls of [get_file_ids] with the same id list return
    objects that [!=] tells apart whenever they yield different ids. *)
Lemma py_ne_resolved dir1 dir2 ids w o1 w1 o2 w2 :
  get_file_ids dir1 ids w = (Ok o1, w1) →
  get_file_ids dir2 ids w1 = (Ok o2, w2) →
  py_iter o1 ≠ py_iter o2 →
  py_ne o1 o2 = true.
Proof.
  destruct ids as [path|].
  - rewrite !get_file_ids_load.
    destruct (load_txt (files w) path) as [l1|]; [| done].
    destruct (load_txt (files w1) path) as [l2|]; [| done].
    intros [= <- _] [= <- _] Hne. simpl in *.
    apply negb_true_iff, bool_decide_eq_false. done.
  - destruct (os_listdir (files w) dir1) as [l1|e1] eqn:E1.
    2: { by rewrite (get_file_ids_listdir_raise _ _ _ E1). }
    rewrite (get_file_ids_listdir _ _ _ E1). intros [= <- <-].
    destruct (os_listdir (files (mkWorld (files w)
                (log w ++ [EvListdir dir1]) (S (S (next_obj w))))) dir2)
      as [l2|e2] eqn:E2.
    2: { by rewrite (get_file_ids_listdir_raise _ _ _ E2). }
    rewrite (get_file_ids_listdir _ _ _ E2). intros [= <- _] _.
    cbn [py_ne next_obj]. apply negb_true_iff, Nat.eqb_neq. lia.
Qed.

(** C2: when the label directory and the waveform directory resolve to
    id sequences that differ (in content or only in order),
    [process_files] raises the mismatch [ValueError]; no file is changed
    and the calls made up to then include no label load, no waveform load
    and no save. *)
Theorem process_files_mismatch_aborts lab wav ids out lvl w o1 w1 o2 w2
    (Hlab : get_file_ids lab ids w = (Ok o1, w1))
    (Hwav : get_file_ids wav ids w1 = (Ok o2, w2))
    (Hdiff : py_iter o1 ≠ py_iter o2) :
  process_files proto_encode lab wav ids out lvl w
    = (Raise (ValueError mismatch_msg), w2) ∧
  files w2 = files w ∧
  ∃ evs, log w2 = (log w ++ evs)%list ∧
         Forall (λ ev, is_load ev = false ∧ is_save ev = false) evs.
Proof.
  split; [| split].
  - unfold process_files.
    rewrite (bind_ok _ _ _ _ _ Hlab), (bind_ok _ _ _ _ _ Hwav).
    by rewrite (py_ne_resolved _ _ _ _ _ _ _ _ Hlab Hwav Hdiff).
  - apply get_file_ids_quiet in Hlab as [Hf1 _].
    apply get_file_ids_quiet in Hwav as [Hf2 _]. congruence.
  - apply get_file_ids_quiet in Hlab as (_ & evs1 & Hl1 & H1).
    apply get_file_ids_quiet in Hwav as (_ & evs2 & Hl2 & H2).
    exists (evs1 ++ evs2)%list.
    split; [by rewrite Hl2, Hl1, app_assoc |].
    by apply Forall_app.
Qed.

(** C3: with no id list [get_file_ids] returns a [map] iterator over a
    [filter] iterator, a new object at each call; whatever two
    directories that can be listed contain, also when they yield the same
    ids, [process_files] without an id list raises the mismatch
    [ValueError], having only listed the two directories. *)
Theorem process_files_without_id_list_raises lab wav out lvl w l1 l2
    (Hlab : os_listdir (files w) lab = Ok l1)
    (Hwav : os_listdir (files w) wav = Ok l2) :
  ∃ n1 f1 n1' p1 n2 f2 n2' p2 w1 w2,
    get_file_ids lab None w
      = (Ok (PyMap n1 f1 (PyFilter n1' p1 (PyList l1))), w1) ∧
    get_file_ids wav None w1
      = (Ok (PyMap n2 f2 (PyFilter n2' p2 (PyList l2))), w2) ∧
    n1 ≠ n2 ∧
    process_files proto_encode lab wav None out lvl w
      = (Raise (ValueError mismatch_msg), w2) ∧
    files w2 = files w ∧
    log w2 = (log w ++ [EvListdir lab; EvListdir wav])%list.
Proof.
  pose proof (get_file_ids_listdir lab w l1 Hlab) as H1.
  set (w1 := mkWorld (files w) (log w ++ [EvListdir lab])
                     (S (S (next_obj w)))) in *.
  pose proof (get_file_ids_listdir wav w1 l2 Hwav) as H2.
  do 10 eexists. split; [exact H1 |]. split; [exact H2 |].
  split; [simpl; lia |]. split; [| split].
  - unfold process_files.
    rewrite (bind_ok _ _ _ _ _ H1), (bind_ok _ _ _ _ _ H2).
    cbn [py_ne]. replace (_ =? _)%nat with false; [done |].
    symmetry. apply Nat.eqb_neq. simpl. lia.
  - done.
  - simpl. by rewrite <- app_assoc.
Qed.

Lemma wav_entries_not_lab (listing : list string) :
  Forall (λ f, PyStr.endswith f ".wav" = true) listing →
  filter (λ f, PyStr.endswith f ".lab" = true) listing = [].
Proof.
  induction 1 as [|f l Hf _ IH]; [done |].
  rewrite filter_cons_False; [done |].
  rewrite (PyStrFacts.endswith_excl f ".wav" ".lab"); done.
Qed.

(** C10: the listing is filtered by [.lab] whatever the directory is
    for, so a waveform directory whose entries all end in [.wav] yields
    no id, and [process_wav_files] without an id list then returns after
    listing the directory, with no load, no save and no file changed. *)
Theorem process_wav_files_wav_entries_only wav out w listing
    (Hlist : os_listdir (files w) wav = Ok listing)
    (Hwavs : Forall (λ f, PyStr.endswith f ".wav" = true) listing) :
  ∃ o w',
    get_file_ids wav None w = (Ok o, w') ∧
    py_iter o = [] ∧
    process_wav_files wav None out w = (Ok tt, w') ∧
    files w' = files w ∧
    log w' = (log w ++ [EvListdir wav])%list.
Proof.
  pose proof (get_file_ids_listdir wav w listing Hlist) as H.
  pose proof (wav_entries_not_lab listing Hwavs) as Hnone.
  eexists _, _. split; [exact H |].
  split; [cbn [py_iter]; by rewrite Hnone |].
  split; [| done].
  unfold process_wav_files. rewrite (bind_ok _ _ _ _ _ H).
  cbn [py_iter]. by rewrite Hnone.
Qed.

(** *** One turn of each loop, when every call returns *)

Ltac run_body :=
  unfold bind, emit, read, call, ret, write_file;
  repeat (cbn [files log next_obj];
          match goal with
          | H : _ = Ok _ |- _ => rewrite H
          | H : _ = None |- _ => rewrite H
          end);
  cbn [files log next_obj]; rewrite <- ?app_assoc; try done.

Lemma process_files_body_ok lab wav out lvl file_id w
    label wv bin dur f0 mgc bap :
  let lab_path := PyStr.path_join lab (file_id +:+ ".lab") in
  let wav_path := PyStr.path_join wav (file_id +:+ ".wav") in
  let feature_path := PyStr.path_join out (file_id +:+ ".proto") in
  let data := proto_encode (features_dict bin dur f0 mgc bap) in
  Label_new (files w) lab_path lvl = Ok label →
  Wav_new (files w) wav_path = Ok wv →
  binarise label "" = Ok bin →
  count_frames label = Ok dur →
  extract_features wv = Ok (f0, mgc, bap) →
  save_error (files w) feature_path data = None →
  process_files_body proto_encode lab wav out lvl file_id w =
    (Ok tt,
     mkWorld (<[feature_path := data]> (files w))
             (log w ++ [EvLabel lab_path lvl; EvWav wav_path;
                        EvSaveProto feature_path data])
             (next_obj w)).
Proof.
  intros lab_path wav_path feature_path data Hl Hw Hb Hc He Hs.
  subst lab_path wav_path feature_path data.
  unfold process_files_body, new_label, new_wav, save_proto,
    PyStr.format_ext.
  run_body.
Qed.

Lemma process_lab_files_body_ok lab out lvl file_id w label dur bin :
  let lab_path := PyStr.path_join lab (file_id +:+ ".lab") in
  let duration_path := PyStr.path_join out (file_id +:+ ".dur") in
  let binary_label_path := PyStr.path_join out (file_id +:+ ".lab") in
  Label_new (files w) lab_path lvl = Ok label →
  count_frames label = Ok dur →
  save_error (files w) duration_path (txt_encode dur) = None →
  binarise label "" = Ok bin →
  save_error (<[duration_path := txt_encode dur]> (files w))
             binary_label_path (bin_encode bin) = None →
  process_lab_files_body lab out lvl file_id w =
    (Ok tt,
     mkWorld (<[binary_label_path := bin_encode bin]>
                (<[duration_path := txt_encode dur]> (files w)))
             (log w ++ [EvLabel lab_path lvl;
                        EvSaveTxt duration_path (txt_encode dur);
                        EvSaveBin binary_label_path (bin_encode bin)])
             (next_obj w)).
Proof.
  intros lab_path duration_path binary_label_path Hl Hc Hs1 Hb Hs2.
  subst lab_path duration_path binary_label_path.
  unfold process_lab_files_body, new_label, save_txt, save_bin,
    PyStr.format_ext.
  run_body.
Qed.

Lemma process_wav_files_body_ok wav out file_id w wv f0 mgc bap :
  let wav_path := PyStr.path_join wav (file_id +:+ ".wav") in
  let feature_path := PyStr.path_join out file_id in
  let fs1 := <[feature_path +:+ ".f0" := bin_encode f0]> (files w) in
  let fs2 := <[feature_path +:+ ".mgc" := bin_encode mgc]> fs1 in
  let fs3 := <[feature_path +:+ ".bap" := bin_encode bap]> fs2 in
  Wav_new (files w) wav_path = Ok wv →
  extract_features wv = Ok (f0, mgc, bap) →
  save_error (files w) (feature_path +:+ ".f0") (bin_encode f0) = None →
  save_error fs1 (feature_path +:+ ".mgc") (bin_encode mgc) = None →
  save_error fs2 (feature_path +:+ ".bap") (bin_encode bap) = None →
  process_wav_files_body wav out file_id w =
    (Ok tt,
     mkWorld fs3
             (log w ++ [EvWav wav_path;
                        EvSaveBin (feature_path +:+ ".f0") (bin_encode f0);
                        EvSaveBin (feature_path +:+ ".mgc") (bin_encode mgc);
                        EvSaveBin (feature_path +:+ ".bap") (bin_encode bap)])
             (next_obj w)).
Proof.
  intros wav_path feature_path fs1 fs2 fs3 Hw He Hs1 Hs2 Hs3.
  subst wav_path feature_path fs1 fs2 fs3.
  unfold process_wav_files_body, new_wav, save_bin, PyStr.format_ext.
  run_body.
Qed.

(** *** The records written per id *)

(** C1: in combined mode, once both directories have resolved to ids
    that pass the comparison, the run is the loop over those ids; the
    turn of the id at any position the loop reaches loads the label from
    [lab/id.lab] and the waveform from [wav/id.wav] and makes one save
    call, which puts at [out/id.proto] the record whose fields are
    exactly [lab], [duration], [f0], [mgc] and [bap], holding the results
    of [binarise('')], [count_frames()] and [extract_features()]; no other
    file changes. *)
Theorem process_files_writes_record lab wav ids out lvl w o1 w1 o2 w2
    k file_id wk label wv bin dur f0 mgc bap
    (Hlab : get_file_ids lab ids w = (Ok o1, w1))
    (Hwav : get_file_ids wav ids w1 = (Ok o2, w2))
    (Hvalid : py_ne o1 o2 = false)
    (Hk : py_iter o1 !! k = Some file_id)
    (Hreach : for_each (process_files_body proto_encode lab wav out lvl)
                       (take k (py_iter o1)) w2 = (Ok tt, wk))
    (Hlabel : Label_new (files wk)
                (PyStr.path_join lab (file_id +:+ ".lab")) lvl = Ok label)
    (Hwv : Wav_new (files wk)
             (PyStr.path_join wav (file_id +:+ ".wav")) = Ok wv)
    (Hbin : binarise label "" = Ok bin)
    (Hdur : count_frames label = Ok dur)
    (Hfeat : extract_features wv = Ok (f0, mgc, bap))
    (Hsave : save_error (files wk)
               (PyStr.path_join out (file_id +:+ ".proto"))
               (proto_encode (features_dict bin dur f0 mgc bap)) = None) :
  process_files proto_encode lab wav ids out lvl w
    = for_each (process_files_body proto_encode lab wav out lvl)
               (py_iter o1) w2 ∧
  for_each (process_files_body proto_encode lab wav out lvl)
           (take (S k) (py_iter o1)) w2
    = (Ok tt,
       mkWorld
         (<[PyStr.path_join out (file_id +:+ ".proto")
              := proto_encode (features_dict bin dur f0 mgc bap)]>
            (files wk))
         (log wk ++
            [EvLabel (PyStr.path_join lab (file_id +:+ ".lab")) lvl;
             EvWav (PyStr.path_join wav (file_id +:+ ".wav"));
             EvSaveProto (PyStr.path_join out (file_id +:+ ".proto"))
               (proto_encode (features_dict bin dur f0 mgc bap))])
         (next_obj wk)) ∧
  dom (features_dict bin dur f0 mgc bap)
    = ({["lab"; "duration"; "f0"; "mgc"; "bap"]} : gset string) ∧
  features_dict bin dur f0 mgc bap !! "lab" = Some (VArr bin) ∧
  features_dict bin dur f0 mgc bap !! "duration" = Some (VInt dur) ∧
  features_dict bin dur f0 mgc bap !! "f0" = Some (VArr f0) ∧
  features_dict bin dur f0 mgc bap !! "mgc" = Some (VArr mgc) ∧
  features_dict bin dur f0 mgc bap !! "bap" = Some (VArr bap).
Proof.
  split; [| split; [| split]].
  - unfold process_files.
    by rewrite (bind_ok _ _ _ _ _ Hlab), (bind_ok _ _ _ _ _ Hwav), Hvalid.
  - apply (for_each_step _ _ _ _ _ _ _ Hk Hreach).
    by apply (process_files_body_ok _ _ _ _ _ _ label wv).
  - unfold features_dict. rewrite !dom_insert_L, dom_empty_L. set_solver.
  - unfold features_dict. by simplify_map_eq.
Qed.

(** C6: in label-only mode the run is the loop over the resolved ids;
    the turn of the id at any position the loop reaches makes two save
    calls and changes two files and no other: first [out/id.dur] receives
    the frame count as text, then [out/id.lab] receives the binarised
    label as a binary blob. *)
Theorem process_lab_files_writes_two lab ids out lvl w o w0
    k file_id wk label dur bin
    (Hids : get_file_ids lab ids w = (Ok o, w0))
    (Hk : py_iter o !! k = Some file_id)
    (Hreach : for_each (process_lab_files_body lab out lvl)
                       (take k (py_iter o)) w0 = (Ok tt, wk))
    (Hlabel : Label_new (files wk)
                (PyStr.path_join lab (file_id +:+ ".lab")) lvl = Ok label)
    (Hdur : count_frames label = Ok dur)
    (Hsave1 : save_error (files wk)
                (PyStr.path_join out (file_id +:+ ".dur"))
                (txt_encode dur) = None)
    (Hbin : binarise label "" = Ok bin)
    (Hsave2 : save_error
                (<[PyStr.path_join out (file_id +:+ ".dur")
                     := txt_encode dur]> (files wk))
                (PyStr.path_join out (file_id +:+ ".lab"))
                (bin_encode bin) = None) :
  process_lab_files lab ids out lvl w
    = for_each (process_lab_files_body lab out lvl) (py_iter o) w0 ∧
  for_each (process_lab_files_body lab out lvl) (take (S k) (py_iter o)) w0
    = (Ok tt,
       mkWorld
         (<[PyStr.path_join out (file_id +:+ ".lab") := bin_encode bin]>
            (<[PyStr.path_join out (file_id +:+ ".dur") := txt_encode dur]>
               (files wk)))
         (log wk ++
            [EvLabel (PyStr.path_join lab (file_id +:+ ".lab")) lvl;
             EvSaveTxt (PyStr.path_join out (file_id +:+ ".dur"))
               (txt_encode dur);
             EvSaveBin (PyStr.path_join out (file_id +:+ ".lab"))
               (bin_encode bin)])
         (next_obj wk)).
Proof.
  split.
  - unfold process_lab_files. by rewrite (bind_ok _ _ _ _ _ Hids).
  - apply (for_each_step _ _ _ _ _ _ _ Hk Hreach).
    by apply (process_lab_files_body_ok _ _ _ _ _ label).
Qed.

(** C7: in waveform-only mode the run is the loop over the resolved ids;
    the turn of the id at any position the loop reaches makes three save
    calls, all of raw binary files, and changes three files and no other:
    [out/id.f0], [out/id.mgc] and [out/id.bap] receive the three sequences
    of [extract_features()]; none of the calls saves a record or a text,
    and no path written ends in [.proto], [.dur] or [.lab]. *)
Theorem process_wav_files_writes_three wav ids out w o w0
    k file_id wk wv f0 mgc bap
    (Hids : get_file_ids wav ids w = (Ok o, w0))
    (Hk : py_iter o !! k = Some file_id)
    (Hreach : for_each (process_wav_files_body wav out)
                       (take k (py_iter o)) w0 = (Ok tt, wk))
    (Hwv : Wav_new (files wk)
             (PyStr.path_join wav (file_id +:+ ".wav")) = Ok wv)
    (Hfeat : extract_features wv = Ok (f0, mgc, bap))
    (Hsave1 : save_error (files wk)
                (PyStr.path_join out file_id +:+ ".f0")
                (bin_encode f0) = None)
    (Hsave2 : save_error
                (<[PyStr.path_join out file_id +:+ ".f0"
                     := bin_encode f0]> (files wk))
                (PyStr.path_join out file_id +:+ ".mgc")
                (bin_encode mgc) = None)
    (Hsave3 : save_error
                (<[PyStr.path_join out file_id +:+ ".mgc"
                     := bin_encode mgc]>
                   (<[PyStr.path_join out file_id +:+ ".f0"
                        := bin_encode f0]> (files wk)))
                (PyStr.path_join out file_id +:+ ".bap")
                (bin_encode bap) = None) :
  process_wav_files wav ids out w
    = for_each (process_wav_files_body wav out) (py_iter o) w0 ∧
  for_each (process_wav_files_body wav out) (take (S k) (py_iter o)) w0
    = (Ok tt,
       mkWorld
         (<[PyStr.path_join out file_id +:+ ".bap" := bin_encode bap]>
            (<[PyStr.path_join out file_id +:+ ".mgc" := bin_encode mgc]>
               (<[PyStr.path_join out file_id +:+ ".f0" := bin_encode f0]>
                  (files wk))))
         (log wk ++
            [EvWav (PyStr.path_join wav (file_id +:+ ".wav"));
             EvSaveBin (PyStr.path_join out file_id +:+ ".f0")
               (bin_encode f0);
             EvSaveBin (PyStr.path_join out file_id +:+ ".mgc")
               (bin_encode mgc);
             EvSaveBin (PyStr.path_join out file_id +:+ ".bap")
               (bin_encode bap)])
         (next_obj wk)) ∧
  PyStr.path_join out file_id +:+ ".f0"
    = PyStr.path_join out (file_id +:+ ".f0") ∧
  PyStr.path_join out file_id +:+ ".mgc"
    = PyStr.path_join out (file_id +:+ ".mgc") ∧
  PyStr.path_join out file_id +:+ ".bap"
    = PyStr.path_join out (file_id +:+ ".bap") ∧
  Forall (λ ext,
            Forall (λ p, PyStr.endswith p ext = false)
                   [PyStr.path_join out file_id +:+ ".f0";
                    PyStr.path_join out file_id +:+ ".mgc";
                    PyStr.path_join out file_id +:+ ".bap"])
         [".proto"; ".dur"; ".lab"].
Proof.
  split; [| split].
  - unfold process_wav_files. by rewrite (bind_ok _ _ _ _ _ Hids).
  - apply (for_each_step _ _ _ _ _ _ _ Hk Hreach).
    by apply (process_wav_files_body_ok _ _ _ _ wv).
  - split; [apply PyStrFacts.path_join_ext; done |].
    split; [apply PyStrFacts.path_join_ext; done |].
    split; [apply PyStrFacts.path_join_ext; done |].
    repeat constructor; apply PyStrFacts.endswith_other; done.
Qed.

(** *** What a turn of a loop may write *)

Lemma writes_only_write_file paths path data :
  path ∈ paths → writes_only paths (write_file path data).
Proof.
  intros Hin w r w'. unfold write_file.
  destruct (save_error (files w) path data); intros [= _ <-].
  - apply extends_refl.
  - repeat split; try done; simpl.
    + intros p Hp. apply lookup_insert_ne. by intros ->.
    + intros p Hp. rewrite lookup_insert. by case_decide.
Qed.

Ltac footprint :=
  repeat first
    [ apply writes_only_bind; [| intros ? ]
    | apply writes_only_emit
    | apply writes_only_read
    | apply writes_only_call
    | apply writes_only_ret
    | apply writes_only_write_file; set_solver
    | match goal with
      | |- writes_only _ (let '(_, _) := ?x in _) => destruct x
      end ].

Lemma mode_body_footprint (m : Mode) out file_id :
  writes_only (mode_outputs m out file_id) (mode_body proto_encode m out file_id).
Proof.
  destruct m; cbn [mode_body mode_outputs];
    unfold process_files_body, process_lab_files_body,
      process_wav_files_body, new_label, new_wav,
      save_proto, save_txt, save_bin;
    footprint.
Qed.

Lemma run_mode_loop (m : Mode) ids out w :
  run_mode proto_encode m ids out w
    = bind (mode_ids m ids) (for_each (mode_body proto_encode m out)) w.
Proof.
  destruct m; cbn [run_mode mode_ids mode_body];
    unfold process_files, process_lab_files, process_wav_files, bind.
  - destruct (get_file_ids lab ids w) as [[o1|e1] w1]; [| done].
    destruct (get_file_ids wav ids w1) as [[o2|e2] w2]; [| done].
    by destruct (py_ne o1 o2).
  - by destruct (get_file_ids lab ids w) as [[o1|e1] w1].
  - by destruct (get_file_ids wav ids w) as [[o1|e1] w1].
Qed.

(** C9: in every mode, when the loop has reached the id at position [k]
    and a call made for that id raises, the run ends with that exception
    in the very world the failing turn left: no later id is visited and
    nothing is undone.  That world keeps every file that was on disk
    when the turn began, differs from it at most at the output paths of
    the current id, and its log extends the log of the turn's start. *)
Theorem batch_halts_at_failure (m : Mode) ids out w xs w0
    k file_id wk e wk'
    (Hids : mode_ids m ids w = (Ok xs, w0))
    (Hk : xs !! k = Some file_id)
    (Hreach : for_each (mode_body proto_encode m out) (take k xs) w0
              = (Ok tt, wk))
    (Hfail : mode_body proto_encode m out file_id wk = (Raise e, wk')) :
  run_mode proto_encode m ids out w = (Raise e, wk') ∧
  extends_writing (mode_outputs m out file_id) wk wk'.
Proof.
  split.
  - rewrite run_mode_loop, (bind_ok _ _ _ _ _ Hids).
    by apply (for_each_halts _ _ _ _ _ _ _ _ Hk Hreach).
  - by apply (mode_body_footprint m out file_id wk (Raise e)).
Qed.

(** *** Dispatch *)

Lemma truthy_spec (a : option string) :
  truthy a = true ↔ ∃ s, a = Some s ∧ s ≠ "".
Proof.
  destruct a as [s|]; simpl.
  - rewrite negb_true_iff, String.eqb_neq. split.
    + intros Hs. by exists s.
    + by intros (s' & [= <-] & Hs).
  - split; [done | by intros (s & [=] & _)].
Qed.

(** C8 (amended): the dispatch runs exactly one of the three modes,
    chosen by which directory arguments are supplied and not the empty
    string: combined mode when both are, else label-only mode when the
    label directory is, else waveform-only mode when the waveform
    directory is; when neither is, the run returns at once without
    error, with the world as it was. *)
Theorem main_dispatch (args : Args) :
  (truthy (lab_dir args) = true → truthy (wav_dir args) = true →
   main proto_encode args
     = process_files proto_encode (str_of (lab_dir args))
         (str_of (wav_dir args)) (id_list args) (out_dir args)
         (state_level args)) ∧
  (truthy (lab_dir args) = true → truthy (wav_dir args) = false →
   main proto_encode args
     = process_lab_files (str_of (lab_dir args)) (id_list args)
         (out_dir args) (state_level args)) ∧
  (truthy (lab_dir args) = false → truthy (wav_dir args) = true →
   main proto_encode args
     = process_wav_files (str_of (wav_dir args)) (id_list args)
         (out_dir args)) ∧
  (truthy (lab_dir args) = false → truthy (wav_dir args) = false →
   ∀ w, main proto_encode args w = (Ok tt, w)).
Proof.
  unfold main, py_and.
  repeat split; intros Hl Hw; rewrite ?Hl; cbn iota; rewrite ?Hw; done.
Qed.

End ProcessFacts.

(** * Whole runs *)

Section BatchFacts.

Context `{C : Collaborators}.
Variable proto_encode : gmap string Value → string.

Implicit Types (w : World) (m : Mode) (xs : list string).

(** The events that are neither a load of a label or waveform nor a
    save. *)
Lemma quiet_events (evs : list Event) :
  Forall (λ ev, is_load ev = false ∧ is_save ev = false) evs →
  omap saved_path evs = [] ∧ filter (λ ev, is_load ev = true) evs = [].
Proof.
  induction 1 as [|ev evs [Hl Hs] _ [IH1 IH2]]; [done |].
  split.
  - destruct ev; simpl in *; done.
  - rewrite filter_cons_False; [done | by rewrite Hl].
Qed.

(** Resolving and comparing ids touches no file and makes no load or
    save call, whatever the outcome. *)
Lemma mode_ids_quiet m ids w r w0 :
  mode_ids m ids w = (r, w0) →
  files w0 = files w ∧
  ∃ evs, log w0 = (log w ++ evs)%list ∧
         Forall (λ ev, is_load ev = false ∧ is_save ev = false) evs.
Proof.
  destruct m as [lab wav lvl|lab lvl|wav]; cbn [mode_ids]; unfold bind.
  - destruct (get_file_ids lab ids w) as [[o1|e1] w1] eqn:E1.
    + destruct (get_file_ids wav ids w1) as [[o2|e2] w2] eqn:E2.
      * apply get_file_ids_quiet in E1 as (Hf1 & evs1 & Hl1 & H1).
        apply get_file_ids_quiet in E2 as (Hf2 & evs2 & Hl2 & H2).
        intros Hr.
        assert (w0 = w2) as -> by (destruct (py_ne o1 o2); by inversion Hr).
        split; [congruence |]. exists (evs1 ++ evs2)%list.
        split; [by rewrite Hl2, Hl1, app_assoc | by apply Forall_app].
      * apply get_file_ids_quiet in E1 as (Hf1 & evs1 & Hl1 & H1).
        apply get_file_ids_quiet in E2 as (Hf2 & evs2 & Hl2 & H2).
        intros [= _ <-].
        split; [congruence |]. exists (evs1 ++ evs2)%list.
        split; [by rewrite Hl2, Hl1, app_assoc | by apply Forall_app].
    + intros [= _ <-]. by apply get_file_ids_quiet in E1.
  - destruct (get_file_ids lab ids w) as [[o1|e1] w1] eqn:E1;
      intros [= _ <-]; by apply get_file_ids_quiet in E1.
  - destruct (get_file_ids wav ids w) as [[o1|e1] w1] eqn:E1;
      intros [= _ <-]; by apply get_file_ids_quiet in E1.
Qed.

Lemma extends_mono (paths paths' : list string) w w' :
  paths ⊆ paths' → extends_writing paths w w' → extends_writing paths' w w'.
Proof.
  intros Hsub (Ha & Hb & Hc). repeat split; [| done | done].
  intros p Hp. apply Ha. intros Hin. apply Hp. by apply Hsub.
Qed.

(** A loop writes at most what its turns write. *)
Lemma for_each_footprint {A} (body : A → M unit) (outs : A → list string)
    (ys : list A) :
  (∀ y, writes_only (outs y) (body y)) →
  writes_only (ys ≫= outs) (for_each body ys).
Proof.
  intros Hbody. induction ys as [|y ys IH]; [apply writes_only_ret |].
  cbn [for_each]. rewrite bind_cons. apply writes_only_bind.
  - intros w r w' Hr. eapply extends_mono; [| by eapply Hbody].
    intros p Hp. apply elem_of_app. by left.
  - intros _ w r w' Hr. eapply extends_mono; [| by eapply IH].
    intros p Hp. apply elem_of_app. by right.
Qed.

(** What a loop adds to a projection of the log is what its turns add,
    turn after turn. *)
Lemma for_each_log {A B} (body : A → M unit) (g : list Event → list B)
    (f : A → list B) (ys : list A) w w' :
  (∀ y v v', body y v = (Ok tt, v') → g (log v') = (g (log v) ++ f y)%list) →
  for_each body ys w = (Ok tt, w') →
  g (log w') = (g (log w) ++ (ys ≫= f))%list.
Proof.
  intros Hbody. revert w. induction ys as [|y ys IH]; intros w.
  - intros [= <-]. by rewrite app_nil_r.
  - cbn [for_each]. unfold bind.
    destruct (body y w) as [[[]|e] w1] eqn:E; [| done].
    intros Hrest. rewrite (IH _ Hrest), (Hbody _ _ _ E), bind_cons.
    by rewrite app_assoc.
Qed.

(** *** One turn, case by case *)

Ltac turn_cases :=
  unfold process_files_body, process_lab_files_body, process_wav_files_body,
    new_label, new_wav, save_proto, save_txt, save_bin, PyStr.format_ext;
  unfold bind, emit, read, call, ret, write_file; cbn [files log next_obj];
  repeat (match goal with
          | |- context [match ?x with _ => _ end] =>
              lazymatch x with
              | context [match _ with _ => _ end] => fail
              | _ => destruct x eqn:?
              end
          end; cbn [files log next_obj]).

Lemma mode_body_saves m out file_id w w' :
  mode_body proto_encode m out file_id w = (Ok tt, w') →
  omap saved_path (log w')
    = (omap saved_path (log w) ++ mode_outputs m out file_id)%list.
Proof.
  destruct m; cbn [mode_body mode_outputs]; turn_cases;
    intros [= <-]; cbn [log]; rewrite !omap_app; simpl;
    by rewrite <- ?app_assoc, ?app_nil_r.
Qed.

Lemma mode_body_loads m out file_id w w' :
  mode_body proto_encode m out file_id w = (Ok tt, w') →
  filter (λ ev, is_load ev = true) (log w')
    = (filter (λ ev, is_load ev = true) (log w) ++ mode_loads m file_id)%list.
Proof.
  destruct m; cbn [mode_body mode_loads]; turn_cases;
    intros [= <-]; cbn [log]; rewrite !filter_app; simpl;
    by rewrite <- ?app_assoc, ?app_nil_r.
Qed.

(** *** Resolution that fails, resolution that cannot fail *)

(** X1: without an id list, a directory that cannot be listed makes
    [get_file_ids] raise the listing error before any iterator is created,
    and every mode started on that directory raises it at once: the only
    call made is that [os.listdir]; in combined mode the waveform directory
    is not listed when the label directory fails, and a waveform directory
    that fails after the label directory was listed raises its error just
    the same. *)
Theorem unlistable_dir_aborts d other out lvl w e
    (Hdir : os_listdir (files w) d = Raise e) :
  get_file_ids d None w
    = (Raise e, mkWorld (files w) (log w ++ [EvListdir d]) (next_obj w)) ∧
  process_files proto_encode d other None out lvl w
    = (Raise e, mkWorld (files w) (log w ++ [EvListdir d]) (next_obj w)) ∧
  process_lab_files d None out lvl w
    = (Raise e, mkWorld (files w) (log w ++ [EvListdir d]) (next_obj w)) ∧
  process_wav_files d None out w
    = (Raise e, mkWorld (files w) (log w ++ [EvListdir d]) (next_obj w)) ∧
  ∀ listing, os_listdir (files w) other = Ok listing →
    process_files proto_encode other d None out lvl w
      = (Raise e,
         mkWorld (files w) (log w ++ [EvListdir other; EvListdir d])
                 (S (S (next_obj w)))).
Proof.
  pose proof (get_file_ids_listdir_raise d w e Hdir) as H.
  split; [exact H |]. split; [| split; [| split]].
  - unfold process_files. by rewrite (bind_raise _ _ _ _ _ H).
  - unfold process_lab_files. by rewrite (bind_raise _ _ _ _ _ H).
  - unfold process_wav_files. by rewrite (bind_raise _ _ _ _ _ H).
  - intros listing Hother.
    pose proof (get_file_ids_listdir other w listing Hother) as H1.
    unfold process_files. rewrite (bind_ok _ _ _ _ _ H1).
    rewrite (bind_raise _ _ _ _ _
               (get_file_ids_listdir_raise d
                  (mkWorld (files w) (log w ++ [EvListdir other])
                           (S (S (next_obj w)))) e Hdir)).
    cbn [files log next_obj]. by rewrite <- app_assoc.
Qed.

(** X2: an id list that [load_txt] cannot read makes every mode raise
    that error after the one [load_txt] call: no directory is listed,
    nothing is loaded or saved, and combined mode does not try the id list
    a second time. *)
Theorem unreadable_id_list_aborts lab wav path out lvl w e
    (Hlist : load_txt (files w) path = Raise e) :
  process_files proto_encode lab wav (Some path) out lvl w
    = (Raise e, mkWorld (files w) (log w ++ [EvLoadTxt path]) (next_obj w)) ∧
  process_lab_files lab (Some path) out lvl w
    = (Raise e, mkWorld (files w) (log w ++ [EvLoadTxt path]) (next_obj w)) ∧
  process_wav_files wav (Some path) out w
    = (Raise e, mkWorld (files w) (log w ++ [EvLoadTxt path]) (next_obj w)).
Proof.
  assert (∀ dir, get_file_ids dir (Some path) w
            = (Raise e, mkWorld (files w) (log w ++ [EvLoadTxt path])
                                (next_obj w))) as H.
  { intros dir. by rewrite get_file_ids_load, Hlist. }
  split; [| split].
  - unfold process_files. by rewrite (bind_raise _ _ _ _ _ (H lab)).
  - unfold process_lab_files. by rewrite (bind_raise _ _ _ _ _ (H lab)).
  - unfold process_wav_files. by rewrite (bind_raise _ _ _ _ _ (H wav)).
Qed.

(** X3: with an id list, combined mode reads the list twice, lists
    neither directory, and its comparison always passes: whatever the two
    directories contain, the run is the loop over the ids of the list, and
    the comparison never raises. *)
Theorem id_list_skips_comparison lab wav path out lvl w xs
    (Hlist : load_txt (files w) path = Ok xs) :
  process_files proto_encode lab wav (Some path) out lvl w
    = for_each (process_files_body proto_encode lab wav out lvl) xs
        (mkWorld (files w) (log w ++ [EvLoadTxt path; EvLoadTxt path])
                 (next_obj w)).
Proof.
  unfold process_files, bind. rewrite get_file_ids_load, Hlist.
  rewrite get_file_ids_load. cbn [files log next_obj]. rewrite Hlist.
  cbn [py_ne py_iter]. rewrite bool_decide_eq_true_2 by done.
  cbn [negb]. by rewrite <- app_assoc.
Qed.

(** X4: when the id sequence is empty (an empty id list, or a listing
    with no [.lab] entry), every mode returns normally right after
    resolving the ids, with no load, no save and no file changed. *)
Theorem empty_id_sequence_returns m ids out w w0
    (Hids : mode_ids m ids w = (Ok [], w0)) :
  run_mode proto_encode m ids out w = (Ok tt, w0) ∧
  files w0 = files w ∧
  omap saved_path (log w0) = omap saved_path (log w) ∧
  filter (λ ev, is_load ev = true) (log w0)
    = filter (λ ev, is_load ev = true) (log w).
Proof.
  split; [by rewrite run_mode_loop, (bind_ok _ _ _ _ _ Hids) |].
  apply mode_ids_quiet in Hids as (Hf & evs & Hl & Hq).
  apply quiet_events in Hq as [Hs Hld].
  split; [done |]. rewrite Hl, omap_app, filter_app, Hs, Hld.
  by rewrite !app_nil_r.
Qed.

(** *** Whole runs *)

(** X5: a run that returns normally has, in every mode, visited the ids
    in sequence order: the paths of its save calls are the output paths of
    the first id, then of the second, and so on (an id that occurs twice is
    written twice), and its label and waveform loads are the input files of
    the ids in the same order, each label opened with the run's
    [state_level]. *)
Theorem run_mode_call_sequence m ids out w xs w0 w'
    (Hids : mode_ids m ids w = (Ok xs, w0))
    (Hrun : run_mode proto_encode m ids out w = (Ok tt, w')) :
  omap saved_path (log w')
    = (omap saved_path (log w) ++ (xs ≫= mode_outputs m out))%list ∧
  filter (λ ev, is_load ev = true) (log w')
    = (filter (λ ev, is_load ev = true) (log w) ++ (xs ≫= mode_loads m))%list.
Proof.
  rewrite run_mode_loop, (bind_ok _ _ _ _ _ Hids) in Hrun.
  apply mode_ids_quiet in Hids as (_ & evs & Hl & Hq).
  apply quiet_events in Hq as [Hs Hld].
  assert (omap saved_path (log w0) = omap saved_path (log w)) as Hs0
    by by rewrite Hl, omap_app, Hs, app_nil_r.
  assert (filter (λ ev, is_load ev = true) (log w0)
          = filter (λ ev, is_load ev = true) (log w)) as Hl0
    by by rewrite Hl, filter_app, Hld, app_nil_r.
  split.
  - rewrite <- Hs0.
    apply (for_each_log _ (omap saved_path) _ _ _ _
             (mode_body_saves m out) Hrun).
  - rewrite <- Hl0.
    apply (for_each_log _ (filter (λ ev, is_load ev = true)) _ _ _ _
             (mode_body_loads m out) Hrun).
Qed.

(** X6: whether it returns or raises, a run in any mode removes no file
    and leaves every path that is not an output path of one of the
    resolved ids exactly as it was; its log extends the log it started
    with. *)
Theorem run_mode_footprint m ids out w xs w0 r w'
    (Hids : mode_ids m ids w = (Ok xs, w0))
    (Hrun : run_mode proto_encode m ids out w = (r, w')) :
  extends_writing (xs ≫= mode_outputs m out) w w'.
Proof.
  rewrite run_mode_loop, (bind_ok _ _ _ _ _ Hids) in Hrun.
  apply mode_ids_quiet in Hids as (Hf & evs & Hl & _).
  apply (extends_trans _ w w0 w').
  - repeat split.
    + intros p _. by rewrite Hf.
    + intros p. by rewrite Hf.
    + rewrite Hl. by apply prefix_app_r.
  - apply (for_each_footprint _ (mode_outputs m out) xs
             (mode_body_footprint proto_encode m out) w0 r w' Hrun).
Qed.

(** *** What a turn that raises leaves behind *)

(** X7: a combined-mode turn that raises has changed no file: the record
    is saved last, so whichever call fails (label, waveform, binarise,
    frame count, feature extraction or the save itself) the id leaves
    nothing on disk, and the waveform is not opened when the label fails to
    load. *)
Theorem process_files_body_failure_writes_nothing lab wav out lvl
    file_id w e w'
    (Hfail : process_files_body proto_encode lab wav out lvl file_id w
             = (Raise e, w')) :
  files w' = files w ∧
  (Label_new (files w) (PyStr.path_join lab (file_id +:+ ".lab")) lvl
     = Raise e →
   log w'
     = (log w ++ [EvLabel (PyStr.path_join lab (file_id +:+ ".lab")) lvl])%list).
Proof.
  revert Hfail. turn_cases; intros [= <- <-]; cbn [files log];
    (split; [done |]); intros Hl; try congruence.
Qed.


(** X9: a waveform-only turn that raises has written a prefix of its
    three files: nothing, [.f0] only, or [.f0] and [.mgc]; the [.bap] file
    is never written by a turn that raises. *)
Theorem process_wav_files_body_failure_cases wav out file_id w e w'
    (Hfail : process_wav_files_body wav out file_id w = (Raise e, w')) :
  files w' = files w ∨
  ∃ wv f0 mgc bap,
    Wav_new (files w) (PyStr.path_join wav (file_id +:+ ".wav")) = Ok wv ∧
    extract_features wv = Ok (f0, mgc, bap) ∧
    (files w'
       = <[PyStr.path_join out file_id +:+ ".f0" := bin_encode f0]> (files w)
     ∨ files w'
       = <[PyStr.path_join out file_id +:+ ".mgc" := bin_encode mgc]>
           (<[PyStr.path_join out file_id +:+ ".f0" := bin_encode f0]>
              (files w))).
Proof.
  revert Hfail. turn_cases; intros [= <- <-]; cbn [files log];
    try (by left); right; eexists _, _, _, _;
    (split; [first [reflexivity | eassumption] |]); (split; [first [reflexivity | eassumption] |]);
    by (left + right).
Qed.

(** X10: label-only mode with the output directory equal to the label
    directory overwrites its input: a turn that returns has replaced the
    label file [lab/id.lab] it loaded by the binarised label. *)
Theorem process_lab_files_body_overwrites_label lab lvl file_id w w'
    (Hturn : process_lab_files_body lab lab lvl file_id w = (Ok tt, w')) :
  ∃ label bin,
    Label_new (files w) (PyStr.path_join lab (file_id +:+ ".lab")) lvl
      = Ok label ∧
    binarise label "" = Ok bin ∧
    files w' !! PyStr.path_join lab (file_id +:+ ".lab")
      = Some (bin_encode bin).
Proof.
  revert Hturn. turn_cases; intros [= <-]; cbn [files].
  eexists _, _. split; [first [reflexivity | eassumption] |]. split; [first [reflexivity | eassumption] |].
  apply lookup_insert_eq.
Qed.

(** *** The command line without an id list *)

(** X11: invoked with both directories (non-empty) and no id list, the
    script ends with the mismatch [ValueError] whenever both directories
    can be listed: it makes the two [os.listdir] calls and nothing else, so
    this command line never loads a file or writes an output. *)
Theorem main_both_dirs_without_id_list args w l1 l2
    (Hlab : truthy (lab_dir args) = true)
    (Hwav : truthy (wav_dir args) = true)
    (Hids : id_list args = None)
    (Hl1 : os_listdir (files w) (str_of (lab_dir args)) = Ok l1)
    (Hl2 : os_listdir (files w) (str_of (wav_dir args)) = Ok l2) :
  main proto_encode args w
    = (Raise (ValueError mismatch_msg),
       mkWorld (files w)
               (log w ++ [EvListdir (str_of (lab_dir args));
                          EvListdir (str_of (wav_dir args))])
               (S (S (S (S (next_obj w)))))).
Proof.
  unfold main, py_and. rewrite Hlab, Hwav, Hids.
  pose proof (get_file_ids_listdir _ w l1 Hl1) as H1.
  unfold process_files. rewrite (bind_ok _ _ _ _ _ H1).
  rewrite (bind_ok _ _ _ _ _
             (get_file_ids_listdir (str_of (wav_dir args))
                (mkWorld (files w)
                   (log w ++ [EvListdir (str_of (lab_dir args))])
                   (S (S (next_obj w)))) l2 Hl2)).
  cbn [py_ne files log next_obj].
  replace (_ =? _)%nat with false
    by (symmetry; apply Nat.eqb_neq; lia).
  cbn [negb]. unfold raise. by rewrite <- app_assoc.
Qed.

(** *** Which files a run without an id list opens *)

Lemma bind_singleton_fmap {A B D} (h : A → B) (k : B → D) (l : list A) :
  (h <$> l) ≫= (λ y, [k y]) = (λ x, k (h x)) <$> l.
Proof. induction l as [|x l IH]; [done |]. cbn. by f_equal. Qed.

(** X12: label-only mode without an id list, when it returns, has opened
    exactly the entries of the label directory that end in [.lab], each
    once under its own name joined to the directory, in listing order, and
    no other label or waveform. *)
Theorem process_lab_files_opens_lab_entries lab out lvl w listing w'
    (Hlist : os_listdir (files w) lab = Ok listing)
    (Hrun : process_lab_files lab None out lvl w = (Ok tt, w')) :
  filter (λ ev, is_load ev = true) (log w')
    = (filter (λ ev, is_load ev = true) (log w)
         ++ ((λ f, EvLabel (PyStr.path_join lab f) lvl)
               <$> filter (λ f, PyStr.endswith f ".lab" = true) listing))%list.
Proof.
  unfold process_lab_files in Hrun.
  rewrite (bind_ok _ _ _ _ _ (get_file_ids_listdir lab w listing Hlist))
    in Hrun.
  rewrite (for_each_log _ (filter (λ ev, is_load ev = true)) _ _ _ _
             (mode_body_loads (LabelOnly lab lvl) out) Hrun).
  cbn [log py_iter mode_loads]. rewrite filter_app.
  rewrite (filter_cons_False _ (EvListdir lab)) by done.
  rewrite filter_nil, app_nil_r. f_equal.
  rewrite (bind_singleton_fmap _
             (λ id, EvLabel (PyStr.path_join lab
                               (PyStr.format_ext ".lab" id)) lvl)).
  apply Forall_fmap_ext, Forall_forall. intros f Hf.
  apply list_elem_of_filter in Hf as [Hf _]. unfold PyStr.format_ext.
  by rewrite <- (PyStrFacts.endswith_inv f ".lab" Hf).
Qed.

(** X13: waveform-only mode without an id list is driven by the [.lab]
    entries of the waveform directory: when it returns, the waveforms it
    has opened are, for each entry [x.lab] in listing order, the file
    [wav/x.wav], and nothing else; entries that end in [.wav] are not what
    it opens. *)
Theorem process_wav_files_opens_wav_of_lab_entries wav out w listing w'
    (Hlist : os_listdir (files w) wav = Ok listing)
    (Hrun : process_wav_files wav None out w = (Ok tt, w')) :
  filter (λ ev, is_load ev = true) (log w')
    = (filter (λ ev, is_load ev = true) (log w)
         ++ ((λ f, EvWav (PyStr.path_join wav
                            (PyStr.drop_last 4 f +:+ ".wav")))
               <$> filter (λ f, PyStr.endswith f ".lab" = true) listing))%list.
Proof.
  unfold process_wav_files in Hrun.
  rewrite (bind_ok _ _ _ _ _ (get_file_ids_listdir wav w listing Hlist))
    in Hrun.
  rewrite (for_each_log _ (filter (λ ev, is_load ev = true)) _ _ _ _
             (mode_body_loads (WavOnly wav) out) Hrun).
  cbn [log py_iter mode_loads]. rewrite filter_app.
  rewrite (filter_cons_False _ (EvListdir wav)) by done.
  rewrite filter_nil, app_nil_r. f_equal.
  apply (bind_singleton_fmap _
           (λ id, EvWav (PyStr.path_join wav (PyStr.format_ext ".wav" id)))).
Qed.

End BatchFacts.

(** * The script run on the example disk *)

Import Demo.

Lemma get_file_ids_lab_entries_witness :
  ∃ o w', get_file_ids "labs_ab" None w0 = (Ok o, w') ∧
          py_iter o ≡ₚ ["a"; "b"].
Proof.
  destruct (get_file_ids_lab_entries (C := demo) "labs_ab" w0
              ["b.lab"; "a.txt"; "a.lab"] eq_refl)
    as (o & w' & Hrun & _ & _ & _ & _ & _ & Hab).
  exists o, w'. split; [exact Hrun |]. apply Hab. apply perm_swap.
Defined.

Lemma get_file_ids_id_list_witness :
  get_file_ids "labs" (Some "ids.txt") w0
    = get_file_ids "no/such/dir" (Some "ids.txt") w0 ∧
  ∃ w', get_file_ids "no/such/dir" (Some "ids.txt") w0
          = (Ok (PyList ["p"; "q"]), w').
Proof.
  destruct (get_file_ids_id_list (C := demo) "no/such/dir" "labs"
              "ids.txt" w0) as (Hdir & _ & Hxy).
  split; [symmetry; exact Hdir |].
  destruct (Hxy "p" "q" eq_refl eq_refl eq_refl eq_refl) as (w' & Hrun & _).
  exists w'. exact Hrun.
Defined.

Lemma process_files_mismatch_aborts_witness :
  ∃ w', process_files demo_proto "labs" "labs_rev" None "out" false w0
          = (Raise (ValueError mismatch_msg), w') ∧
        files w' = files w0.
Proof.
  pose proof (process_files_mismatch_aborts (C := demo) demo_proto
                "labs" "labs_rev" None "out" false w0 _ _ _ _
                eq_refl eq_refl) as H.
  destruct H as (Hrun & Hfiles & _).
  - vm_compute. discriminate.
  - eexists. split; [exact Hrun | exact Hfiles].
Defined.

Lemma process_files_without_id_list_raises_witness :
  ∃ w', process_files demo_proto "labs" "labs" None "out" false w0
          = (Raise (ValueError mismatch_msg), w') ∧
        files w' = files w0.
Proof.
  destruct (process_files_without_id_list_raises (C := demo) demo_proto
              "labs" "labs" "out" false w0 _ _ eq_refl eq_refl)
    as (n1 & f1 & n1' & p1 & n2 & f2 & n2' & p2 & w1 & w2
        & _ & _ & _ & Hrun & Hfiles & _).
  exists w2. split; [exact Hrun | exact Hfiles].
Defined.

Lemma process_wav_files_wav_entries_only_witness :
  ∃ w', process_wav_files "wavs" None "out" w0 = (Ok tt, w') ∧
        files w' = files w0.
Proof.
  assert (Forall (λ f, PyStr.endswith f ".wav" = true) ["p.wav"; "q.wav"])
    as Hwavs by (repeat constructor).
  destruct (process_wav_files_wav_entries_only (C := demo) "wavs" "out" w0
              ["p.wav"; "q.wav"] eq_refl Hwavs)
    as (o & w' & _ & _ & Hrun & Hfiles & _).
  exists w'. split; [exact Hrun | exact Hfiles].
Defined.

Lemma process_files_writes_record_witness :
  ∃ w', process_files demo_proto "labs" "wavs" (Some "one.txt") "out" false w0
          = (Ok tt, w') ∧
        omap saved_path (log w') = ["out/p.proto"] ∧
        dom (files w') = dom (files w0) ∪ {["out/p.proto"]}.
Proof.
  destruct (process_files_writes_record (C := demo) demo_proto
              "labs" "wavs" (Some "one.txt") "out" false w0 _ _ _ _
              0 "p" _ _ _ _ _ _ _ _
              eq_refl eq_refl eq_refl eq_refl eq_refl eq_refl eq_refl
              eq_refl eq_refl eq_refl eq_refl)
    as (Hrun & Hstep & _).
  eexists. split; [rewrite Hrun; exact Hstep |].
  split; [reflexivity |]. cbn [files]. rewrite dom_insert_L. set_solver.
Defined.

Lemma process_lab_files_writes_two_witness :
  ∃ w', process_lab_files "labs" (Some "one.txt") "out" false w0
          = (Ok tt, w') ∧
        omap saved_path (log w') = ["out/p.dur"; "out/p.lab"] ∧
        files w' !! "out/p.dur" = Some "2".
Proof.
  destruct (process_lab_files_writes_two (C := demo)
              "labs" (Some "one.txt") "out" false w0 _ _
              0 "p" _ _ _ _
              eq_refl eq_refl eq_refl eq_refl eq_refl eq_refl eq_refl
              eq_refl)
    as (Hrun & Hstep).
  eexists. split; [rewrite Hrun; exact Hstep |].
  split; reflexivity.
Defined.

Lemma process_wav_files_writes_three_witness :
  ∃ w', process_wav_files "wavs" (Some "ids.txt") "out" w0 = (Ok tt, w') ∧
        omap saved_path (log w')
          = ["out/p.f0"; "out/p.mgc"; "out/p.bap";
             "out/q.f0"; "out/q.mgc"; "out/q.bap"].
Proof.
  destruct (process_wav_files_writes_three (C := demo)
              "wavs" (Some "ids.txt") "out" w0 _ _
              1 "q" _ _ _ _ _
              eq_refl eq_refl eq_refl eq_refl eq_refl eq_refl eq_refl
              eq_refl)
    as (Hrun & Hstep & _).
  eexists. split; [rewrite Hrun; exact Hstep |]. reflexivity.
Defined.

Lemma batch_halts_at_failure_witness :
  ∃ w', run_mode demo_proto (LabelOnly "labs" false) None "out" w0
          = (Raise (CollabError "empty label"), w') ∧
        omap saved_path (log w') = ["out/p.dur"; "out/p.lab"; "out/q.dur"] ∧
        files w' !! "out/q.dur" = Some "0" ∧
        files w' !! "out/q.lab" = None.
Proof.
  destruct (batch_halts_at_failure (C := demo) demo_proto
              (LabelOnly "labs" false) None "out" w0 _ _
              1 "q" _ (CollabError "empty label") _
              eq_refl eq_refl eq_refl eq_refl)
    as (Hrun & _).
  eexists. split; [exact Hrun |]. repeat split; reflexivity.
Defined.

Lemma main_dispatch_witness :
  main demo_proto (mkArgs (Some "labs") (Some "wavs") (Some "one.txt")
                          "out" false)
    = process_files demo_proto "labs" "wavs" (Some "one.txt") "out" false ∧
  main demo_proto (mkArgs (Some "labs") None None "out" true)
    = process_lab_files "labs" None "out" true ∧
  main demo_proto (mkArgs (Some "") (Some "wavs") None "out" false)
    = process_wav_files "wavs" None "out" ∧
  main demo_proto (mkArgs None (Some "") None "out" false) w0 = (Ok tt, w0).
Proof.
  split; [| split; [| split]].
  - exact (proj1 (main_dispatch (C := demo) demo_proto
                    (mkArgs (Some "labs") (Some "wavs") (Some "one.txt")
                            "out" false))
                 eq_refl eq_refl).
  - exact (proj1 (proj2 (main_dispatch (C := demo) demo_proto
                           (mkArgs (Some "labs") None None "out" true)))
                 eq_refl eq_refl).
  - exact (proj1 (proj2 (proj2 (main_dispatch (C := demo) demo_proto
                                  (mkArgs (Some "") (Some "wavs") None
                                          "out" false))))
                 eq_refl eq_refl).
  - exact (proj2 (proj2 (proj2 (main_dispatch (C := demo) demo_proto
                                  (mkArgs None (Some "") None "out" false))))
                 eq_refl eq_refl w0).
Defined.

(** C8 as stated fails when an argument is supplied as the empty string:
    with [--lab_dir ''] and [--wav_dir wavs] both arguments are present,
    yet the dispatch runs waveform-only mode, whose outcome on the example
    disk is not that of combined mode. *)
Lemma main_empty_lab_dir_runs_wav_only :
  is_Some (lab_dir empty_lab_dir_args) ∧
  is_Some (wav_dir empty_lab_dir_args) ∧
  main demo_proto empty_lab_dir_args w0
    = process_wav_files "wavs" (Some "ids.txt") "out" w0 ∧
  main demo_proto empty_lab_dir_args w0
    ≠ process_files demo_proto "" "wavs" (Some "ids.txt") "out" false w0.
Proof.
  split; [by eexists |]. split; [by eexists |]. split; [reflexivity |].
  vm_compute. discriminate.
Qed.

(** ** Runs that fail to resolve, empty runs, whole runs *)

Lemma unlistable_dir_aborts_witness :
  process_lab_files "nowhere" None "out" false w0
    = (Raise (OSError "No such file or directory"),
       mkWorld disk [EvListdir "nowhere"] 0) ∧
  process_files demo_proto "labs" "nowhere" None "out" false w0
    = (Raise (OSError "No such file or directory"),
       mkWorld disk [EvListdir "labs"; EvListdir "nowhere"] 2).
Proof.
  destruct (unlistable_dir_aborts (C := demo) demo_proto "nowhere" "labs"
              "out" false w0 (OSError "No such file or directory") eq_refl)
    as (_ & _ & Hlab & _ & Hsecond).
  split; [exact Hlab |].
  exact (Hsecond ["p.lab"; "notes.txt"; "q.lab"] eq_refl).
Defined.

Lemma unreadable_id_list_aborts_witness :
  process_files demo_proto "labs" "wavs" (Some "nope.txt") "out" false w0
    = (Raise (OSError "No such file or directory"),
       mkWorld disk [EvLoadTxt "nope.txt"] 0).
Proof.
  exact (proj1 (unreadable_id_list_aborts (C := demo) demo_proto
                  "labs" "wavs" "nope.txt" "out" false w0
                  (OSError "No such file or directory") eq_refl)).
Defined.

Lemma id_list_skips_comparison_witness :
  process_files demo_proto "labs" "wavs" (Some "one.txt") "out" false w0
    = for_each (process_files_body demo_proto "labs" "wavs" "out" false)
        ["p"] (mkWorld disk [EvLoadTxt "one.txt"; EvLoadTxt "one.txt"] 0).
Proof.
  exact (id_list_skips_comparison (C := demo) demo_proto "labs" "wavs"
           "one.txt" "out" false w0 ["p"] eq_refl).
Defined.

Lemma empty_id_sequence_returns_witness :
  run_mode demo_proto (Combined "labs" "wavs" false) (Some "labs/q.lab")
           "out" w0
    = (Ok tt,
       mkWorld disk [EvLoadTxt "labs/q.lab"; EvLoadTxt "labs/q.lab"] 0).
Proof.
  exact (proj1 (empty_id_sequence_returns (C := demo) demo_proto
                  (Combined "labs" "wavs" false) (Some "labs/q.lab")
                  "out" w0 _ eq_refl)).
Defined.

Lemma run_mode_call_sequence_witness :
  ∃ w', run_mode demo_proto (WavOnly "wavs") (Some "ids.txt") "out" w0
          = (Ok tt, w') ∧
        omap saved_path (log w')
          = ["out/p.f0"; "out/p.mgc"; "out/p.bap";
             "out/q.f0"; "out/q.mgc"; "out/q.bap"] ∧
        filter (λ ev, is_load ev = true) (log w')
          = [EvWav "wavs/p.wav"; EvWav "wavs/q.wav"].
Proof.
  eexists. split; [vm_compute; reflexivity |].
  unshelve epose proof (run_mode_call_sequence (C := demo) demo_proto
                          (WavOnly "wavs") (Some "ids.txt") "out" w0
                          _ _ _ _ _) as H;
    [shelve | shelve | shelve
    | vm_compute; reflexivity | vm_compute; reflexivity |].
  vm_compute in H. exact H.
Defined.

Lemma run_mode_footprint_witness :
  ∃ w', run_mode demo_proto (LabelOnly "labs" false) None "out" w0
          = (Raise (CollabError "empty label"), w') ∧
        extends_writing
          ["out/p.dur"; "out/p.lab"; "out/q.dur"; "out/q.lab"] w0 w'.
Proof.
  eexists. split; [vm_compute; reflexivity |].
  unshelve epose proof (run_mode_footprint (C := demo) demo_proto
                          (LabelOnly "labs" false) None "out" w0
                          _ _ _ _ _ _) as H;
    [shelve | shelve | shelve | shelve
    | vm_compute; reflexivity | vm_compute; reflexivity |].
  exact H.
Defined.

(** ** Turns that raise *)

Lemma process_files_body_failure_writes_nothing_witness :
  ∃ w', process_files_body demo_proto "labs" "wavs" "out" false "q" w0
          = (Raise (CollabError "empty label"), w') ∧
        files w' = files w0.
Proof.
  eexists. split; [vm_compute; reflexivity |].
  unshelve epose proof (process_files_body_failure_writes_nothing
                          (C := demo) demo_proto "labs" "wavs" "out" false
                          "q" w0 _ _ _) as [H _];
    [shelve | shelve | vm_compute; reflexivity |].
  exact H.
Defined.


Lemma process_wav_files_body_failure_cases_witness :
  ∃ w', process_wav_files_body "wavs" "ro" "p" w0
          = (Raise (OSError "Permission denied"), w') ∧
        (files w' = files w0 ∨
         ∃ wv f0 mgc bap,
           Wav_new (files w0) "wavs/p.wav" = Ok wv ∧
           extract_features wv = Ok (f0, mgc, bap) ∧
           (files w' = <["ro/p.f0" := bin_encode f0]> (files w0) ∨
            files w'
              = <["ro/p.mgc" := bin_encode mgc]>
                  (<["ro/p.f0" := bin_encode f0]> (files w0)))).
Proof.
  eexists. split; [vm_compute; reflexivity |].
  unshelve epose proof (process_wav_files_body_failure_cases (C := demo)
                          "wavs" "ro" "p" w0 _ _ _) as H;
    [shelve | shelve | vm_compute; reflexivity |].
  exact H.
Defined.

Lemma process_lab_files_body_overwrites_label_witness :
  ∃ w', process_lab_files_body "labs" "labs" false "p" w0 = (Ok tt, w') ∧
        ∃ label bin,
          Label_new (files w0) "labs/p.lab" false = Ok label ∧
          binarise label "" = Ok bin ∧
          files w' !! "labs/p.lab" = Some (bin_encode bin).
Proof.
  eexists. split; [vm_compute; reflexivity |].
  unshelve epose proof (process_lab_files_body_overwrites_label (C := demo)
                          "labs" false "p" w0 _ _) as H;
    [shelve | vm_compute; reflexivity |].
  exact H.
Defined.

(** ** Runs without an id list *)

Lemma main_both_dirs_without_id_list_witness :
  main demo_proto (mkArgs (Some "labs") (Some "labs") None "out" false) w0
    = (Raise (ValueError mismatch_msg),
       mkWorld disk [EvListdir "labs"; EvListdir "labs"] 4).
Proof.
  exact (main_both_dirs_without_id_list (C := demo) demo_proto
           (mkArgs (Some "labs") (Some "labs") None "out" false) w0
           _ _ eq_refl eq_refl eq_refl eq_refl eq_refl).
Defined.

Lemma process_lab_files_opens_lab_entries_witness :
  ∃ w', process_lab_files "labs" None "out" false DemoFull.w_full
          = (Ok tt, w') ∧
        filter (λ ev, is_load ev = true) (log w')
          = [EvLabel "labs/p.lab" false; EvLabel "labs/q.lab" false].
Proof.
  eexists. split; [vm_compute; reflexivity |].
  unshelve epose proof (process_lab_files_opens_lab_entries (C := demo)
                          demo_proto "labs" "out" false DemoFull.w_full
                          _ _ _ _) as H;
    [shelve | shelve | vm_compute; reflexivity | vm_compute; reflexivity |].
  vm_compute in H. exact H.
Defined.

Lemma process_wav_files_opens_wav_of_lab_entries_witness :
  ∃ w', process_wav_files "labs" None "out" DemoFull.w_full = (Ok tt, w') ∧
        filter (λ ev, is_load ev = true) (log w')
          = [EvWav "labs/p.wav"; EvWav "labs/q.wav"].
Proof.
  eexists. split; [vm_compute; reflexivity |].
  unshelve epose proof (process_wav_files_opens_wav_of_lab_entries
                          (C := demo) demo_proto "labs" "out"
                          DemoFull.w_full _ _ _ _) as H;
    [shelve | shelve | vm_compute; reflexivity | vm_compute; reflexivity |].
  vm_compute in H. exact H.
Defined.
